(** * Exercise analysis engine: detector, feedback rules and angle aggregator

    A shallow embedding of [exercise_detector.py], [feedback_system.py],
    [angle_utils.py] (in binary32, up to numpy's [arccos]) and the pure
    part of [main.py] ([midpoint], [compute_angles], the front-leg
    selection and the passes of the main loop), together with the
    properties of the repetition-counting state machine.

    Conventions of the embedding:
    - a Python [float] is a primitive binary64 float ([PrimFloat.float]);
      the comparisons [<] and [>] are the IEEE ones ([PrimFloat.ltb]), so a
      NaN compares false with everything, as in Python;
    - a Python [int] is a [Z];
    - a Python [str] is a [string];
    - a Python [dict] is a [gmap]; [d[k]] on a missing key raises
      [KeyError], which is the [None] of the option monad; [d.get(k, v)]
      is [default v (d !! k)]. *)

From Stdlib Require Import ZArith Floats.
From stdpp Require Import base option strings gmap list fin_maps.

Local Open Scope string_scope.
Local Open Scope Z_scope.

(** ** Python numbers *)

Module Py.

(** A number held in a dictionary or a tuple: an [int] or a [float]. *)
Inductive num :=
  | Int (z : Z)
  | Float (f : float).

(** The value of an [int] where a [float] is expected, correctly rounded
    to nearest-even; exact below 2^53. *)
Definition float_of_int (z : Z) : float :=
  SF2Prim (binary_normalize prec emax z 0 false).

(** [x < c] and [x > c] for a number [x] and an [int] literal [c].
    Two [int]s compare as integers. Python compares a [float] with an
    [int] by value; every literal of the sources (0, 70, 80, 90, 120,
    150, 155, 160) is a binary64 value, so that comparison is the IEEE
    one against the converted literal (false on a NaN). *)
Definition lt (x : num) (c : Z) : bool :=
  match x with
  | Int z => z <? c
  | Float f => PrimFloat.ltb f (float_of_int c)
  end.

Definition gt (x : num) (c : Z) : bool :=
  match x with
  | Int z => c <? z
  | Float f => PrimFloat.ltb (float_of_int c) f
  end.

(** [x >= c]; it states properties only, the sources never test it. *)
Definition ge (x : num) (c : Z) : bool :=
  match x with
  | Int z => c <=? z
  | Float f => PrimFloat.leb (float_of_int c) f
  end.

End Py.

(** An angle map ([Dict[str, float]]; the flag [phase_down_score] is an
    [int]) and a landmark or joint map ([Dict[str, Tuple[int, int]]]). *)
Abbreviation angle_map := (gmap string Py.num).
Abbreviation pixel := (Z * Z)%type.
Abbreviation pixel_map := (gmap string pixel).

(** ** [exercise_detector.py] *)

(** [ExerciseStatus]: the dataclass returned by [update]. *)
Record ExerciseStatus := {
  exercise : string;
  reps : Z;
  phase : string
}.

(** The fields of an [ExerciseDetector] object. *)
Record ExerciseDetector := {
  rep_counters : gmap string Z;
  last_phase : gmap string string;
  current_exercise : string
}.

(** [ExerciseDetector.__init__]. *)
Definition init : ExerciseDetector := {|
  rep_counters := <["Squat" := 0]> (<["Push-up" := 0]> (<["Lunge" := 0]> ∅));
  last_phase := <["Squat" := "up"]> (<["Push-up" := "up"]> (<["Lunge" := "up"]> ∅));
  current_exercise := "Squat"
|}.

(** [ExerciseDetector.set_exercise]: the name is taken only when it is a key
    of [rep_counters]. Neither the membership test nor the assignment can
    raise, so the function is total. *)
Definition set_exercise (d : ExerciseDetector) (exercise_name : string)
  : ExerciseDetector :=
  if decide (is_Some (rep_counters d !! exercise_name)) then
    {| rep_counters := rep_counters d;
       last_phase := last_phase d;
       current_exercise := exercise_name |}
  else d.

(** The body shared by the three branches of [update], for the angle [key]
    and the "down" threshold [low] of the branch:
<<
    a = angles.get(key, 180.0)
    if a < low:
        phase = "down"
    elif a > 160 and self.last_phase[exercise] == "down":
        phase = "up"
        self.rep_counters[exercise] += 1
>>
    It returns the new local [phase] and the new [rep_counters]. *)
Definition threshold_branch (d : ExerciseDetector) (angles : angle_map)
    (exercise phase : string) (key : string) (low : Z)
  : option (string * gmap string Z) :=
  let a := default (Py.Float 180) (angles !! key) in
  if Py.lt a low then Some ("down", rep_counters d)
  else if Py.gt a 160 then
    prev ← last_phase d !! exercise;
    if String.eqb prev "down" then
      n ← rep_counters d !! exercise;
      Some ("up", <[exercise := n + 1]> (rep_counters d))
    else Some (phase, rep_counters d)
  else Some (phase, rep_counters d).

(** [ExerciseDetector.update]. [None] is a [KeyError]. The result is the
    detector after the call and the returned status. *)
Definition update (d : ExerciseDetector) (angles : angle_map)
  : option (ExerciseDetector * ExerciseStatus) :=
  let exercise := current_exercise d in
  phase ← last_phase d !! exercise;
  '(phase, counters) ←
    (if String.eqb exercise "Squat" then
       threshold_branch d angles exercise phase "knee" 70
     else if String.eqb exercise "Push-up" then
       threshold_branch d angles exercise phase "elbow" 70
     else if String.eqb exercise "Lunge" then
       threshold_branch d angles exercise phase "front_knee" 80
     else Some (phase, rep_counters d));
  n ← counters !! exercise;
  Some ({| rep_counters := counters;
           last_phase := <[exercise := phase]> (last_phase d);
           current_exercise := exercise |},
        {| exercise := exercise; reps := n; phase := phase |}).

(** Feeding a sequence of angle maps to [update], one call per map; the
    statuses returned are collected in order. *)
Fixpoint feed (d : ExerciseDetector) (frames : list (angle_map))
  : option (ExerciseDetector * list ExerciseStatus) :=
  match frames with
  | [] => Some (d, [])
  | angles :: rest =>
      '(d1, st) ← update d angles;
      '(d2, sts) ← feed d1 rest;
      Some (d2, st :: sts)
  end.

(** The angle map that holds one knee angle. *)
Definition knee_frame (a : Py.num) : angle_map := {[ "knee" := a ]}.

(** The names the constructor puts in both dictionaries. *)
Definition exercises : list string := ["Squat"; "Push-up"; "Lunge"].

(** The angle key and the "down" threshold of the branch [update] takes for
    an exercise name; [None] for a name no branch tests. *)
Definition characteristic (e : string) : option (string * Z) :=
  if String.eqb e "Squat" then Some ("knee", 70)
  else if String.eqb e "Push-up" then Some ("elbow", 70)
  else if String.eqb e "Lunge" then Some ("front_knee", 80)
  else None.

(** The detector [update] leaves behind when the selected exercise ends the
    call with phase [ph] and count [n]. *)
Definition stored (d : ExerciseDetector) (ph : string) (n : Z) : ExerciseDetector :=
  {| rep_counters := <[current_exercise d := n]> (rep_counters d);
     last_phase := <[current_exercise d := ph]> (last_phase d);
     current_exercise := current_exercise d |}.

Definition status_of (d : ExerciseDetector) (ph : string) (n : Z) : ExerciseStatus :=
  {| exercise := current_exercise d; reps := n; phase := ph |}.

(** The status of the squat with count [n] and phase [ph]. *)
Definition squat_status (n : Z) (ph : string) : ExerciseStatus :=
  {| exercise := "Squat"; reps := n; phase := ph |}.

(** Whether an angle map puts the angle [key] below the threshold [low],
    and the number of such maps in a sequence of frames. *)
Definition below (key : string) (low : Z) (angles : angle_map) : bool :=
  Py.lt (default (Py.Float 180) (angles !! key)) low.

Fixpoint descents (key : string) (low : Z) (frames : list angle_map) : Z :=
  match frames with
  | [] => 0
  | angles :: rest => (if below key low angles then 1 else 0) + descents key low rest
  end.

(** 1 for the phase "down", 0 for any other. *)
Definition is_down (ph : string) : Z := if String.eqb ph "down" then 1 else 0.

(** A session: the calls the main loop makes on the detector, in order. *)
Inductive call :=
  | Update (angles : angle_map)
  | SetExercise (exercise_name : string).

Definition step (d : ExerciseDetector) (c : call) : option ExerciseDetector :=
  match c with
  | Update angles => fst <$> update d angles
  | SetExercise exercise_name => Some (set_exercise d exercise_name)
  end.

Fixpoint run (d : ExerciseDetector) (cs : list call) : option ExerciseDetector :=
  match cs with
  | [] => Some d
  | c :: rest => d1 ← step d c; run d1 rest
  end.

(** What the constructor establishes and every call keeps: the two
    dictionaries have exactly the three exercise names as keys, the counts
    are not negative, the phases are "up" or "down", and the selection is
    one of the three names. *)
Record wf (d : ExerciseDetector) : Prop := {
  wf_current : current_exercise d ∈ exercises;
  wf_count : ∀ e : string, e ∈ exercises →
             ∃ n : Z, rep_counters d !! e = Some n ∧ (0 ≤ n)%Z;
  wf_count_dom : ∀ e : string, e ∉ exercises → rep_counters d !! e = None;
  wf_phase : ∀ e : string, e ∈ exercises →
             ∃ p : string, last_phase d !! e = Some p ∧ (p = "up" ∨ p = "down");
  wf_phase_dom : ∀ e : string, e ∉ exercises → last_phase d !! e = None
}.

(** The detector in the middle of a squat: no repetition yet, phase "down". *)
Definition squat_down : ExerciseDetector := {|
  rep_counters := <["Squat" := 0]> (<["Push-up" := 0]> (<["Lunge" := 0]> ∅));
  last_phase := <["Squat" := "down"]> (<["Push-up" := "up"]> (<["Lunge" := "up"]> ∅));
  current_exercise := "Squat"
|}.

(** ** [feedback_system.py] *)

(** [FeedbackSystem.get_feedback]. A joint position is a pair of pixel
    coordinates, which is never falsy, so [knee and toe] tests that both
    are present. *)
Definition get_feedback (exercise : string) (angles : angle_map)
    (joints : pixel_map) : string :=
  if String.eqb exercise "Squat" then
    let back_angle := default (Py.Float 180) (angles !! "back") in
    let knee_angle := default (Py.Float 180) (angles !! "knee") in
    if Py.lt back_angle 150 then "Keep your back straight"
    else if Py.gt knee_angle 90
            && Py.gt (default (Py.Int 0) (angles !! "phase_down_score")) 0
    then "Go lower"
    else "Great squat form"
  else if String.eqb exercise "Push-up" then
    let elbow_angle := default (Py.Float 180) (angles !! "elbow") in
    let body_angle := default (Py.Float 180) (angles !! "body_line") in
    if Py.gt elbow_angle 160 then "Lower your body"
    else if Py.lt body_angle 155 then "Keep body straight"
    else "Great push-up form"
  else if String.eqb exercise "Lunge" then
    match joints !! "front_knee", joints !! "front_toe" with
    | Some knee, Some toe =>
        if toe.1 <? knee.1 then "Don't push knee forward"
        else "Great lunge form"
    | _, _ => "Great lunge form"
    end
  else "Select an exercise".

(** ** [main.py] *)

(** A point given to [calculate_angle]: a landmark (two [int]s) or a
    midpoint (two [float]s). *)
Abbreviation point := (Py.num * Py.num)%type.

Definition px (p : pixel) : point := (Py.Int p.1, Py.Int p.2).

(** [midpoint]: the sums are [int] sums, the division by [2.0] is the
    binary64 one. *)
Definition midpoint (p1 p2 : pixel) : point :=
  (Py.Float (Py.float_of_int (p1.1 + p2.1) / 2),
   Py.Float (Py.float_of_int (p1.2 + p2.2) / 2))%float.

(** The front-leg choice of [compute_angles]:
<<
    front_knee = left_knee if left_knee[1] > right_knee[1] else right_knee
    front_ankle = left_ankle if front_knee == left_knee else right_ankle
    front_hip = left_hip if front_knee == left_knee else right_hip
>>
    [==] is the equality of tuples, by value. The result is
    [(front_hip, front_knee, front_ankle)]. *)
Definition front_leg (left_hip right_hip left_knee right_knee
    left_ankle right_ankle : pixel) : pixel * pixel * pixel :=
  let front_knee := if right_knee.2 <? left_knee.2 then left_knee else right_knee in
  let front_ankle := if decide (front_knee = left_knee) then left_ankle else right_ankle in
  let front_hip := if decide (front_knee = left_knee) then left_hip else right_hip in
  (front_hip, front_knee, front_ankle).

(** ** [angle_utils.py] *)

Module AngleUtils.

(** numpy's [float32] as binary32 spec floats (precision 24, [emax] 128);
    every operation rounds to nearest-even. The conversion of a
    coordinate rounds once; an [int] too large for a [float] (numpy
    raises [OverflowError] there) becomes an infinity. *)
Definition float32 (x : Py.num) : spec_float :=
  match x with
  | Py.Int z => binary_normalize 24 128 z 0 false
  | Py.Float f =>
      match Prim2SF f with
      | S754_finite s m e => binary_round 24 128 s m e
      | other => other
      end
  end.

(** [np.array(point, dtype=np.float32)]. *)
Definition np_array (p : point) : spec_float * spec_float :=
  (float32 p.1, float32 p.2).

(** [u - v] on two-element arrays. *)
Definition sub (u v : spec_float * spec_float) : spec_float * spec_float :=
  (SFsub 24 128 u.1 v.1, SFsub 24 128 u.2 v.2).

(** [np.dot(u, v)] on two-element arrays: the two products, then their
    sum. *)
Definition dot (u v : spec_float * spec_float) : spec_float :=
  SFadd 24 128 (SFmul 24 128 u.1 v.1) (SFmul 24 128 u.2 v.2).

(** [np.linalg.norm(u)]: the square root of [dot(u, u)]. *)
Definition norm (u : spec_float * spec_float) : spec_float :=
  SFsqrt 24 128 (dot u u).

Definition one : spec_float := S754_finite false 8388608 (-23).
Definition minus_one : spec_float := S754_finite true 8388608 (-23).

(** [np.clip(c, -1.0, 1.0)]; a NaN stays a NaN. *)
Definition clip (c : spec_float) : spec_float :=
  if SFltb c minus_one then minus_one
  else if SFltb one c then one
  else c.

(** [norm_ba == 0 or norm_bc == 0]. *)
Definition degenerate (p1 p2 p3 : point) : bool :=
  let ba := sub (np_array p1) (np_array p2) in
  let bc := sub (np_array p3) (np_array p2) in
  SFeqb (norm ba) (S754_zero false) || SFeqb (norm bc) (S754_zero false).

(** [np.dot(ba, bc) / (norm_ba * norm_bc)], before the clip. *)
Definition cos_angle (p1 p2 p3 : point) : spec_float :=
  let ba := sub (np_array p1) (np_array p2) in
  let bc := sub (np_array p3) (np_array p2) in
  SFdiv 24 128 (dot ba bc) (SFmul 24 128 (norm ba) (norm bc)).

Section CalculateAngle.

(** [float(np.degrees(np.arccos(c)))] for a [float32] [c]: numpy's
    [arccos] is kept as a parameter. *)
Variable arccos_degrees : spec_float → float.

(** [calculate_angle]. *)
Definition calculate_angle (point1 point2 point3 : point) : float :=
  if degenerate point1 point2 point3 then 0%float
  else arccos_degrees (clip (cos_angle point1 point2 point3)).

End CalculateAngle.




End AngleUtils.

Section ComputeAngles.

(** [angle_utils.calculate_angle] works in numpy's [float32] and calls
    [arccos]; it is kept as a parameter. It returns a Python [float]. *)
Variable calculate_angle : point → point → point → float.

(** [compute_angles]. [None] is the [KeyError] of a missing landmark. *)
Definition compute_angles (landmarks : pixel_map) : option angle_map :=
  left_shoulder ← landmarks !! "left_shoulder";
  right_shoulder ← landmarks !! "right_shoulder";
  left_elbow ← landmarks !! "left_elbow";
  right_elbow ← landmarks !! "right_elbow";
  left_wrist ← landmarks !! "left_wrist";
  right_wrist ← landmarks !! "right_wrist";
  left_hip ← landmarks !! "left_hip";
  right_hip ← landmarks !! "right_hip";
  left_knee ← landmarks !! "left_knee";
  right_knee ← landmarks !! "right_knee";
  left_ankle ← landmarks !! "left_ankle";
  right_ankle ← landmarks !! "right_ankle";
  let elbow_left := calculate_angle (px left_shoulder) (px left_elbow) (px left_wrist) in
  let elbow_right := calculate_angle (px right_shoulder) (px right_elbow) (px right_wrist) in
  let elbow := ((elbow_left + elbow_right) / 2)%float in
  let knee_left := calculate_angle (px left_hip) (px left_knee) (px left_ankle) in
  let knee_right := calculate_angle (px right_hip) (px right_knee) (px right_ankle) in
  let knee := ((knee_left + knee_right) / 2)%float in
  let hip_left := calculate_angle (px left_shoulder) (px left_hip) (px left_knee) in
  let hip_right := calculate_angle (px right_shoulder) (px right_hip) (px right_knee) in
  let hip := ((hip_left + hip_right) / 2)%float in
  let shoulder_left := calculate_angle (px left_elbow) (px left_shoulder) (px left_hip) in
  let shoulder_right := calculate_angle (px right_elbow) (px right_shoulder) (px right_hip) in
  let shoulder := ((shoulder_left + shoulder_right) / 2)%float in
  let shoulder_mid := midpoint left_shoulder right_shoulder in
  let hip_mid := midpoint left_hip right_hip in
  let knee_mid := midpoint left_knee right_knee in
  let ankle_mid := midpoint left_ankle right_ankle in
  let back := calculate_angle shoulder_mid hip_mid knee_mid in
  let body_line := calculate_angle shoulder_mid hip_mid ankle_mid in
  let '(front_hip, front_knee, front_ankle) :=
    front_leg left_hip right_hip left_knee right_knee left_ankle right_ankle in
  let front_knee_angle := calculate_angle (px front_hip) (px front_knee) (px front_ankle) in
  Some (<["elbow" := Py.Float elbow]>
       (<["knee" := Py.Float knee]>
       (<["hip" := Py.Float hip]>
       (<["shoulder" := Py.Float shoulder]>
       (<["back" := Py.Float back]>
       (<["body_line" := Py.Float body_line]>
       (<["front_knee" := Py.Float front_knee_angle]>
       (<["phase_down_score" :=
            Py.Int (if Py.lt (Py.Float knee) 120 then 1 else 0)]> ∅)))))))).

End ComputeAngles.

(** The [joints] dictionary the main loop gives to [get_feedback]:
<<
    front_toe = landmarks["left_foot_index"] if landmarks["left_knee"][1] > landmarks["right_knee"][1] else landmarks["right_foot_index"]
    front_knee = landmarks["left_knee"] if landmarks["left_knee"][1] > landmarks["right_knee"][1] else landmarks["right_knee"]
>>
    Only the entry of the chosen side is read. *)
Definition front_joints (landmarks : pixel_map) : option pixel_map :=
  left_knee ← landmarks !! "left_knee";
  right_knee ← landmarks !! "right_knee";
  front_toe ← (if right_knee.2 <? left_knee.2
               then landmarks !! "left_foot_index"
               else landmarks !! "right_foot_index");
  let front_knee := if right_knee.2 <? left_knee.2 then left_knee else right_knee in
  Some (<["front_knee" := front_knee]> (<["front_toe" := front_toe]> ∅)).

(** The landmarks [compute_angles] reads, and the keys of its result. *)
Definition read_landmarks : list string :=
  ["left_shoulder"; "right_shoulder"; "left_elbow"; "right_elbow";
   "left_wrist"; "right_wrist"; "left_hip"; "right_hip";
   "left_knee"; "right_knee"; "left_ankle"; "right_ankle"].

Definition angle_keys : gset string :=
  {[ "elbow"; "knee"; "hip"; "shoulder"; "back"; "body_line"; "front_knee";
     "phase_down_score" ]}.

(** *** The main loop

    The loop of [main] is embedded as a function of what the collaborators
    hand in on each pass: the pose result of the frame ([None] when no body
    was detected) and the value [cv2.waitKey] returned. The rows given to
    [logger.log] are collected in a list (the time stamp a row gets in
    [data_logger.py] is left out); drawing does not touch the state. *)

Record Session := {
  detector : ExerciseDetector;
  last_logged_reps : gmap string Z;
  logged : list (string * Z)
}.

(** The state [main] sets up before the loop. *)
Definition start : Session := {|
  detector := init;
  last_logged_reps := <["Squat" := 0]> (<["Push-up" := 0]> (<["Lunge" := 0]> ∅));
  logged := []
|}.

Section MainLoop.

Variable calculate_angle : point → point → point → float.

(** The analysis of one frame (the [if pose_result: ... else: ...] of the
    loop): the session after it, the status and the feedback given to
    [draw_ui]. [None] is a [KeyError]. *)
Definition analyse (s : Session) (pose_result : option pixel_map)
  : option (Session * ExerciseStatus * string) :=
  match pose_result with
  | Some landmarks =>
      angles ← compute_angles calculate_angle landmarks;
      '(d, status) ← update (detector s) angles;
      joints ← front_joints landmarks;
      let feedback := get_feedback (exercise status) angles joints in
      last ← last_logged_reps s !! exercise status;
      if last <? reps status then
        Some ({| detector := d;
                 last_logged_reps :=
                   <[exercise status := reps status]> (last_logged_reps s);
                 logged := logged s ++ [(exercise status, reps status)] |},
              status, feedback)
      else
        Some ({| detector := d;
                 last_logged_reps := last_logged_reps s;
                 logged := logged s |},
              status, feedback)
  | None =>
      '(d, status) ← update (detector s) ∅;
      Some ({| detector := d;
               last_logged_reps := last_logged_reps s;
               logged := logged s |},
            status, "Pose not detected. Step into frame.")
  end.

(** The key handling at the end of a pass, on [key = cv2.waitKey(1) & 0xFF];
    49, 50, 51 and 113 are [ord("1")], [ord("2")], [ord("3")] and
    [ord("q")]. [None] is the [break] of the key [q]. *)
Definition key_pressed (d : ExerciseDetector) (raw_key : Z)
  : option ExerciseDetector :=
  let key := Z.land raw_key 255 in
  if key =? 49 then Some (set_exercise d "Squat")
  else if key =? 50 then Some (set_exercise d "Push-up")
  else if key =? 51 then Some (set_exercise d "Lunge")
  else if key =? 113 then None
  else Some d.

(** One pass of the loop once a frame was read: the session after it and
    whether the loop goes on ([false] is the [break] of the key [q]).
    [None] is a [KeyError]. *)
Definition loop_pass (s : Session) (pose_result : option pixel_map) (raw_key : Z)
  : option (Session * bool) :=
  '(s1, _, _) ← analyse s pose_result;
  match key_pressed (detector s1) raw_key with
  | Some d => Some ({| detector := d;
                       last_logged_reps := last_logged_reps s1;
                       logged := logged s1 |}, true)
  | None => Some (s1, false)
  end.

(** The passes of the loop over the frames read; the session when the loop
    is left (by the key [q], or when no frame is left to read). *)
Fixpoint main_loop (s : Session) (passes : list (option pixel_map * Z))
  : option Session :=
  match passes with
  | [] => Some s
  | (pose_result, raw_key) :: rest =>
      '(s1, go_on) ← loop_pass s pose_result raw_key;
      if go_on : bool then main_loop s1 rest else Some s1
  end.

End MainLoop.

(** The landmarks one pass of the loop may read: those of
    [compute_angles] and the two foot landmarks. *)
Definition loop_landmarks : list string :=
  read_landmarks ++ ["left_foot_index"; "right_foot_index"].

(** What holds of the session before every pass: the detector is well
    formed, the last logged count of each exercise is between 0 and its
    count, every logged row names an exercise and a count between 1 and the
    last logged count of that exercise, and no row is logged twice. *)
Record session_ok (s : Session) : Prop := {
  ok_detector : wf (detector s);
  ok_last : ∀ e : string, e ∈ exercises →
            ∃ l n : Z, last_logged_reps s !! e = Some l
                       ∧ rep_counters (detector s) !! e = Some n
                       ∧ 0 ≤ l ≤ n;
  ok_rows : ∀ (e : string) (r : Z), (e, r) ∈ logged s →
            e ∈ exercises
            ∧ ∃ l : Z, last_logged_reps s !! e = Some l ∧ 1 ≤ r ≤ l;
  ok_nodup : NoDup (logged s)
}.

(** ** Sample inputs *)

(** The angles of a squat with a bent back: back 140, knee 100, flag 1. *)
Definition squat_slouch : angle_map :=
  <["back" := Py.Float 140]>
  (<["knee" := Py.Float 100]>
  (<["phase_down_score" := Py.Int 1]> ∅)).

(** The same knee and flag with a straight back: back 170, knee 100,
    flag 1. *)
Definition squat_shallow : angle_map := <["back" := Py.Float 170]> squat_slouch.

(** A landmark set whose two knees are at the same height, 400, and at
    different horizontal positions. *)
Definition level_knees : pixel_map :=
  <["nose" := (320, 100)]>
  (<["left_shoulder" := (300, 200)]> (<["right_shoulder" := (340, 200)]>
  (<["left_elbow" := (290, 250)]> (<["right_elbow" := (350, 250)]>
  (<["left_wrist" := (285, 300)]> (<["right_wrist" := (355, 300)]>
  (<["left_hip" := (305, 320)]> (<["right_hip" := (335, 320)]>
  (<["left_knee" := (300, 400)]> (<["right_knee" := (340, 400)]>
  (<["left_ankle" := (298, 470)]> (<["right_ankle" := (342, 470)]>
  (<["left_foot_index" := (290, 480)]>
  (<["right_foot_index" := (350, 480)]> ∅)))))))))))))).

(** [level_knees] with the knees moved to x = 50 and x = 70: under
    [vertex_x] the averaged knee "angle" is 60, below every threshold,
    while [level_knees] itself gives 320, above 160. *)
Definition crouch : pixel_map :=
  <["left_knee" := (50, 400)]> (<["right_knee" := (70, 410)]> level_knees).

(** A stand-in for [calculate_angle] that tells vertices apart: it returns
    the horizontal coordinate of the vertex. *)
Definition vertex_x (p1 p2 p3 : point) : float :=
  match p2.1 with
  | Py.Int z => Py.float_of_int z
  | Py.Float f => f
  end.

(** ** Order facts on binary64 comparisons *)

Section FloatOrder.

Lemma SFcompare_antisym (x y : spec_float) :
  SFcompare y x = CompOpp <$> SFcompare x y.
Proof.
  destruct x as [sx|sx| |sx mx ex], y as [sy|sy| |sy my ey]; simpl;
    try reflexivity;
    try (destruct sx; reflexivity);
    try (destruct sy; reflexivity);
    try (destruct sx, sy; reflexivity).
  destruct sx, sy; simpl; try reflexivity;
    rewrite (Z.compare_antisym ey ex);
    destruct (ey ?= ex)%Z; simpl; try reflexivity;
    rewrite ?CompOpp_involutive; f_equal;
    [ exact (Pos.compare_cont_antisym my mx Eq)
    | symmetry; exact (Pos.compare_cont_antisym mx my Eq) ].
Qed.

(** [c <= x] excludes [x < c]. *)
Lemma leb_not_ltb (c x : float) :
  PrimFloat.leb c x = true → PrimFloat.ltb x c = false.
Proof.
  rewrite leb_spec, ltb_spec. unfold SFleb, SFltb.
  rewrite (SFcompare_antisym (Prim2SF c) (Prim2SF x)).
  destruct (SFcompare (Prim2SF c) (Prim2SF x)) as [[]|]; simpl; congruence.
Qed.

(** [x < c] excludes [c < x]. *)
Lemma ltb_asym (c x : float) :
  PrimFloat.ltb x c = true → PrimFloat.ltb c x = false.
Proof.
  rewrite !ltb_spec. unfold SFltb.
  rewrite (SFcompare_antisym (Prim2SF x) (Prim2SF c)).
  destruct (SFcompare (Prim2SF x) (Prim2SF c)) as [[]|]; simpl; congruence.
Qed.

Lemma ge_not_lt (x : Py.num) (c : Z) : Py.ge x c = true → Py.lt x c = false.
Proof. destruct x as [z|f]; simpl; [lia|apply leb_not_ltb]. Qed.

Lemma lt_not_gt (x : Py.num) (c : Z) : Py.lt x c = true → Py.gt x c = false.
Proof. destruct x as [z|f]; simpl; [lia|apply ltb_asym]. Qed.

End FloatOrder.

(** ** One call of [update], read off the three branches *)

Section UpdateStep.

Variable d : ExerciseDetector.
Variable angles : angle_map.
Variables (ph : string) (n : Z).
Hypothesis Hphase : last_phase d !! current_exercise d = Some ph.
Hypothesis Hcount : rep_counters d !! current_exercise d = Some n.

Lemma stored_same_count ph' :
  {| rep_counters := rep_counters d;
     last_phase := <[current_exercise d := ph']> (last_phase d);
     current_exercise := current_exercise d |} = stored d ph' n.
Proof. unfold stored. by rewrite (insert_id (rep_counters d) _ _ Hcount). Qed.

(** The three outcomes of a call on a tracked exercise. *)
Lemma update_known key low :
  characteristic (current_exercise d) = Some (key, low) →
  let a := default (Py.Float 180) (angles !! key) in
  update d angles =
    if Py.lt a low then Some (stored d "down" n, status_of d "down" n)
    else if Py.gt a 160 && String.eqb ph "down"
         then Some (stored d "up" (n + 1), status_of d "up" (n + 1))
         else Some (stored d ph n, status_of d ph n).
Proof.
  intros Hc a. unfold update, characteristic in *. rewrite Hphase. simpl.
  assert (Hb : threshold_branch d angles (current_exercise d) ph key low =
               if Py.lt a low then Some ("down", rep_counters d)
               else if Py.gt a 160 && String.eqb ph "down"
                    then Some ("up", <[current_exercise d := n + 1]> (rep_counters d))
                    else Some (ph, rep_counters d)).
  { unfold threshold_branch. fold a. destruct (Py.lt a low); [done|].
    destruct (Py.gt a 160); simpl; [|done].
    rewrite Hphase. simpl. destruct (String.eqb ph "down"); [|done].
    by rewrite Hcount. }
  assert (Hu : (if String.eqb (current_exercise d) "Squat"
                then threshold_branch d angles (current_exercise d) ph "knee" 70
                else if String.eqb (current_exercise d) "Push-up"
                then threshold_branch d angles (current_exercise d) ph "elbow" 70
                else if String.eqb (current_exercise d) "Lunge"
                then threshold_branch d angles (current_exercise d) ph "front_knee" 80
                else Some (ph, rep_counters d))
               = threshold_branch d angles (current_exercise d) ph key low).
  { destruct (String.eqb (current_exercise d) "Squat"); [by simplify_eq|].
    destruct (String.eqb (current_exercise d) "Push-up"); [by simplify_eq|].
    destruct (String.eqb (current_exercise d) "Lunge"); [by simplify_eq|done]. }
  rewrite Hu, Hb.
  destruct (Py.lt a low); simpl.
  - rewrite Hcount. simpl. by rewrite stored_same_count.
  - destruct (Py.gt a 160 && String.eqb ph "down"); simpl.
    + by rewrite lookup_insert_eq.
    + rewrite Hcount. simpl. by rewrite stored_same_count.
Qed.

(** A call on a name that no branch tests changes nothing. *)
Lemma update_untracked :
  characteristic (current_exercise d) = None →
  update d angles = Some (stored d ph n, status_of d ph n).
Proof.
  intros Hc. unfold update, characteristic in *. rewrite Hphase. simpl.
  destruct (String.eqb (current_exercise d) "Squat"); [done|].
  destruct (String.eqb (current_exercise d) "Push-up"); [done|].
  destruct (String.eqb (current_exercise d) "Lunge"); [done|].
  simpl. rewrite Hcount. simpl. by rewrite stored_same_count.
Qed.

End UpdateStep.


(** ** The invariant of the detector *)

Lemma elem_of_exercises (e : string) :
  e ∈ exercises ↔ e = "Squat" ∨ e = "Push-up" ∨ e = "Lunge".
Proof. unfold exercises. rewrite !elem_of_cons, elem_of_nil. tauto. Qed.

Lemma characteristic_tracked (e : string) :
  e ∈ exercises → ∃ key low, characteristic e = Some (key, low).
Proof.
  rewrite elem_of_exercises. intros [-> | [-> | ->]]; vm_compute; eauto.
Qed.

Lemma wf_init : wf init.
Proof.
  split; unfold init; cbn [rep_counters last_phase current_exercise].
  - apply elem_of_exercises. auto.
  - intros e [-> | [-> | ->]]%elem_of_exercises; exists 0; split;
      (vm_compute; reflexivity) || lia.
  - intros e He. rewrite elem_of_exercises in He.
    rewrite !lookup_insert_ne, lookup_empty by (intros <-; apply He; auto). done.
  - intros e [-> | [-> | ->]]%elem_of_exercises; exists "up"; split;
      (vm_compute; reflexivity) || auto.
  - intros e He. rewrite elem_of_exercises in He.
    rewrite !lookup_insert_ne, lookup_empty by (intros <-; apply He; auto). done.
Qed.

Lemma set_exercise_maps (d : ExerciseDetector) (name : string) :
  rep_counters (set_exercise d name) = rep_counters d
  ∧ last_phase (set_exercise d name) = last_phase d.
Proof. unfold set_exercise. by case_decide. Qed.

Lemma set_exercise_current (d : ExerciseDetector) (name : string) :
  current_exercise (set_exercise d name) =
    if decide (is_Some (rep_counters d !! name)) then name else current_exercise d.
Proof. unfold set_exercise. by case_decide. Qed.

Lemma wf_set_exercise (d : ExerciseDetector) (name : string) :
  wf d → wf (set_exercise d name).
Proof.
  intros [Hc Hn Hnd Hp Hpd].
  destruct (set_exercise_maps d name) as [Er Ep].
  split; rewrite ?Er, ?Ep; try done.
  rewrite set_exercise_current. case_decide as Hin; [|done].
  destruct (decide (name ∈ exercises)) as [|Hout]; [done|].
  rewrite (Hnd _ Hout) in Hin. by destruct Hin.
Qed.

Lemma wf_stored (d : ExerciseDetector) (ph : string) (n : Z) :
  wf d → ph = "up" ∨ ph = "down" → 0 ≤ n → wf (stored d ph n).
Proof.
  intros [Hc Hn Hnd Hp Hpd] Hph H0. split; simpl; try done.
  - intros e He. destruct (decide (current_exercise d = e)) as [->|Hne].
    + rewrite lookup_insert_eq. eauto.
    + rewrite lookup_insert_ne by done. auto.
  - intros e He. rewrite lookup_insert_ne by (intros <-; done). auto.
  - intros e He. destruct (decide (current_exercise d = e)) as [->|Hne].
    + rewrite lookup_insert_eq. eauto.
    + rewrite lookup_insert_ne by done. auto.
  - intros e He. rewrite lookup_insert_ne by (intros <-; done). auto.
Qed.

(** On a well-formed detector [update] raises nothing; it stores a phase
    that is "up" or "down" and a count that is the old one or one more. *)
Lemma update_wf (d : ExerciseDetector) (angles : angle_map) :
  wf d →
  ∃ ph n ph' n',
    last_phase d !! current_exercise d = Some ph
    ∧ rep_counters d !! current_exercise d = Some n
    ∧ update d angles = Some (stored d ph' n', status_of d ph' n')
    ∧ (ph' = "up" ∨ ph' = "down") ∧ 0 ≤ n ∧ (n' = n ∨ n' = n + 1).
Proof.
  intros Hwf.
  destruct (wf_phase d Hwf _ (wf_current d Hwf)) as (ph & Hph & Hud).
  destruct (wf_count d Hwf _ (wf_current d Hwf)) as (n & Hn & H0).
  destruct (characteristic_tracked _ (wf_current d Hwf)) as (key & low & Hc).
  pose proof (update_known d angles ph n Hph Hn key low Hc) as Hu. simpl in Hu.
  exists ph, n.
  destruct (Py.lt _ low).
  - exists "down", n. auto 10.
  - destruct (Py.gt _ 160 && String.eqb ph "down").
    + exists "up", (n + 1). auto 10.
    + exists ph, n. auto 10.
Qed.

Lemma step_wf (d : ExerciseDetector) (c : call) :
  wf d → ∃ d', step d c = Some d' ∧ wf d'.
Proof.
  intros Hwf. destruct c as [angles|name]; simpl.
  - destruct (update_wf d angles Hwf) as (ph & n & ph' & n' & _ & _ & -> & Hud & H0 & Hn).
    simpl. eexists; split; [done|]. apply wf_stored; [done..|lia].
  - eexists; split; [done|]. by apply wf_set_exercise.
Qed.

Lemma run_wf (cs : list call) (d : ExerciseDetector) :
  wf d → ∃ d', run d cs = Some d' ∧ wf d'.
Proof.
  revert d. induction cs as [|c cs IH]; intros d Hwf; simpl.
  - eauto.
  - destruct (step_wf d c Hwf) as (d1 & -> & Hwf1). simpl. by apply IH.
Qed.

(** A call that returns has found both entries of the selected exercise and
    has stored a phase and a count for it, and nothing else. *)
Lemma update_inv (d d' : ExerciseDetector) (angles : angle_map)
    (st : ExerciseStatus) :
  update d angles = Some (d', st) →
  ∃ ph n ph' n',
    last_phase d !! current_exercise d = Some ph
    ∧ rep_counters d !! current_exercise d = Some n
    ∧ d' = stored d ph' n' ∧ st = status_of d ph' n'.
Proof.
  intros Hu.
  destruct (last_phase d !! current_exercise d) as [ph|] eqn:Hph;
    [|by unfold update in Hu; rewrite Hph in Hu].
  destruct (rep_counters d !! current_exercise d) as [n|] eqn:Hn.
  - exists ph, n.
    destruct (characteristic (current_exercise d)) as [[key low]|] eqn:Hc.
    + pose proof (update_known d angles ph n Hph Hn key low Hc) as Hk.
      simpl in Hk. rewrite Hu in Hk.
      destruct (Py.lt _ low); [|destruct (_ && _)]; simplify_eq; eauto 10.
    + rewrite (update_untracked d angles ph n Hph Hn Hc) in Hu.
      simplify_eq. eauto 10.
  - exfalso. unfold update in Hu. rewrite Hph in Hu. simpl in Hu.
    assert (Hb : ∀ key low, threshold_branch d angles (current_exercise d) ph key low
                   ≫= (λ r, r.2 !! current_exercise d) = None).
    { intros key low. unfold threshold_branch.
      destruct (Py.lt _ low); simpl; [done|].
      destruct (Py.gt _ 160); simpl; [|done].
      rewrite Hph. simpl. destruct (String.eqb ph "down"); simpl; [|done].
      by rewrite Hn. }
    destruct (String.eqb (current_exercise d) "Squat");
      [|destruct (String.eqb (current_exercise d) "Push-up");
        [|destruct (String.eqb (current_exercise d) "Lunge")]];
      try (match type of Hu with
           | context [threshold_branch _ _ _ _ ?k ?l] => specialize (Hb k l)
           end;
           destruct (threshold_branch _ _ _ _ _ _) as [[p c]|]; simpl in *;
           [rewrite Hb in Hu|]; done).
    simpl in Hu. by rewrite Hn in Hu.
Qed.

Lemma stored_other (d : ExerciseDetector) (ph : string) (n : Z) (e : string) :
  e ≠ current_exercise d →
  rep_counters (stored d ph n) !! e = rep_counters d !! e
  ∧ last_phase (stored d ph n) !! e = last_phase d !! e.
Proof.
  intros He. unfold stored. cbn [rep_counters last_phase].
  by rewrite !lookup_insert_ne.
Qed.

Lemma stored_current (d : ExerciseDetector) (ph : string) (n : Z) :
  rep_counters (stored d ph n) !! current_exercise d = Some n
  ∧ last_phase (stored d ph n) !! current_exercise d = Some ph.
Proof.
  unfold stored. cbn [rep_counters last_phase]. by rewrite !lookup_insert_eq.
Qed.

(** Every call keeps the invariant and lowers no count. *)
Lemma step_mono (d : ExerciseDetector) (c : call) :
  wf d →
  ∃ d', step d c = Some d' ∧ wf d'
        ∧ ∀ e n, rep_counters d !! e = Some n →
                 ∃ n', rep_counters d' !! e = Some n' ∧ n ≤ n'.
Proof.
  intros Hwf. destruct c as [angles|name]; unfold step.
  - destruct (update_wf d angles Hwf)
      as (ph & n & ph' & n' & Hph & Hn & -> & Hud & H0 & Hn').
    exists (stored d ph' n'). split; [done|].
    split; [apply wf_stored; [done..|lia]|].
    intros e m Hm. destruct (decide (e = current_exercise d)) as [->|Hne].
    + rewrite (proj1 (stored_current d ph' n')). exists n'. split; [done|].
      rewrite Hn in Hm. simplify_eq. lia.
    + rewrite (proj1 (stored_other d ph' n' e Hne)). exists m. split; [done|lia].
  - eexists; split; [done|]. split; [by apply wf_set_exercise|].
    intros e m Hm. destruct (set_exercise_maps d name) as [-> _].
    exists m. split; [done|lia].
Qed.

Lemma knee_frame_lookup (a : Py.num) : knee_frame a !! "knee" = Some a.
Proof. apply lookup_singleton_eq. Qed.

Lemma feed_cons (d : ExerciseDetector) (angles : angle_map)
    (rest : list (angle_map)) :
  feed d (angles :: rest) =
    r ← update d angles; q ← feed r.1 rest; Some (q.1, r.2 :: q.2).
Proof.
  cbn [feed]. destruct (update d angles) as [[d1 st]|]; [|done]. simpl.
  by destruct (feed d1 rest) as [[d2 sts]|].
Qed.

Lemma feed_squat_idle (seq : list Py.num) (d : ExerciseDetector) :
  current_exercise d = "Squat" →
  last_phase d !! "Squat" = Some "up" →
  rep_counters d !! "Squat" = Some 0 →
  Forall (λ a, Py.ge a 70 = true) seq →
  ∃ d' sts, feed d (knee_frame <$> seq) = Some (d', sts)
            ∧ rep_counters d' !! "Squat" = Some 0
            ∧ last_phase d' !! "Squat" = Some "up"
            ∧ Forall (λ st, reps st = 0 ∧ phase st = "up") sts.
Proof.
  revert d. induction seq as [|a seq IH]; intros d Hcur Hph Hn Hall.
  - exists d, []. auto.
  - apply Forall_cons in Hall as [Ha Hall].
    assert (Hu : update d (knee_frame a)
                 = Some (stored d "up" 0, status_of d "up" 0)).
    { rewrite <- Hcur in Hph, Hn.
      pose proof (update_known d (knee_frame a) "up" 0 Hph Hn "knee" 70) as Hu.
      rewrite Hcur in Hu. specialize (Hu eq_refl). cbv zeta in Hu.
      rewrite knee_frame_lookup in Hu. cbn [from_option id] in Hu.
      by rewrite (ge_not_lt a 70 Ha), andb_false_r in Hu. }
    destruct (IH (stored d "up" 0)) as (d' & sts & Hf & Hn' & Hph' & Hsts);
      [done| | |done|].
    + rewrite <- Hcur. apply stored_current.
    + rewrite <- Hcur. apply stored_current.
    + exists d', (status_of d "up" 0 :: sts).
      rewrite fmap_cons, feed_cons, Hu. cbn [mbind option_bind fst snd].
      rewrite Hf. repeat split; try done. apply Forall_cons. auto.
Qed.

(** ** Properties of the repetition counter *)

(** C1, as stated, fails: in the middle of a squat (count 0, phase "down",
    the state one frame with a knee angle of 60 leaves behind) a call with
    the empty angle map reads the default 180, which is above 160, so the
    call completes the repetition: the count goes from 0 to 1 and the phase
    from "down" to "up". *)
Lemma missing_angle_counts_when_down :
  fst <$> feed init [knee_frame (Py.Float 60)] = Some squat_down
  ∧ characteristic (current_exercise squat_down) = Some ("knee", 70)
  ∧ (∅ : angle_map) !! "knee" = None
  ∧ rep_counters squat_down !! "Squat" = Some 0
  ∧ last_phase squat_down !! "Squat" = Some "down"
  ∧ (update squat_down ∅ ≫= λ r, rep_counters r.1 !! "Squat") = Some 1
  ∧ (update squat_down ∅ ≫= λ r, last_phase r.1 !! "Squat") = Some "up"
  ∧ snd <$> update squat_down ∅
    = Some {| exercise := "Squat"; reps := 1; phase := "up" |}.
Proof. repeat split; vm_compute; reflexivity. Qed.

(** C1 (amended): for each of the three exercises and every detector that
    has a phase and a count for it, a call whose angle map lacks the
    characteristic angle raises nothing and reads 180 instead. If the phase
    was "up" the detector is left as it was (same phase, same count); if
    the phase was "down" the call stores phase "up" and the count plus one. *)
Theorem missing_angle_default (d : ExerciseDetector) (angles : angle_map)
    (key : string) (low : Z) (ph : string) (n : Z) :
  characteristic (current_exercise d) = Some (key, low) →
  angles !! key = None →
  last_phase d !! current_exercise d = Some ph →
  rep_counters d !! current_exercise d = Some n →
  (ph = "up" → update d angles = Some (d, status_of d "up" n))
  ∧ (ph = "down" →
     update d angles = Some (stored d "up" (n + 1), status_of d "up" (n + 1))).
Proof.
  intros Hc Hk Hph Hn.
  pose proof (update_known d angles ph n Hph Hn key low Hc) as Hu.
  cbv zeta in Hu. rewrite Hk in Hu. cbn [from_option id] in Hu.
  assert (Hlow : Py.lt (Py.Float 180) low = false).
  { unfold characteristic in Hc.
    repeat (destruct (String.eqb _ _); [by simplify_eq|]). done. }
  rewrite Hlow in Hu.
  change (Py.gt (Py.Float 180) 160) with true in Hu. cbn [andb] in Hu.
  split; intros ->.
  - rewrite Hu. change (String.eqb "up" "down") with false. cbv iota.
    do 2 f_equal. unfold stored.
    rewrite (insert_id (rep_counters d) _ _ Hn), (insert_id (last_phase d) _ _ Hph).
    by destruct d.
  - by rewrite Hu.
Qed.

Lemma missing_angle_default_witness :
  update init ∅ = Some (init, status_of init "up" 0)
  ∧ update squat_down ∅
    = Some (stored squat_down "up" (0 + 1), status_of squat_down "up" (0 + 1)).
Proof.
  split.
  - apply (missing_angle_default init ∅ "knee" 70 "up" 0); reflexivity.
  - apply (missing_angle_default squat_down ∅ "knee" 70 "down" 0); reflexivity.
Defined.

(** C3: from the initial detector (Squat selected, count 0, phase "up") the
    knee angles 180, 60, 180, one angle map each, give the statuses
    (0, "up"), (0, "down"), (1, "up"): exactly one repetition, final phase
    "up". It holds for the angles as [float]s and as [int]s. *)
Theorem squat_single_rep :
  let one_rep (seq : list Py.num) :=
    ∃ d', feed init (knee_frame <$> seq)
          = Some (d', [squat_status 0 "up"; squat_status 0 "down";
                       squat_status 1 "up"])
          ∧ rep_counters d' !! "Squat" = Some 1
          ∧ last_phase d' !! "Squat" = Some "up" in
  one_rep [Py.Float 180; Py.Float 60; Py.Float 180]
  ∧ one_rep [Py.Int 180; Py.Int 60; Py.Int 180].
Proof.
  split; eexists; (split; [vm_compute; reflexivity|]);
    split; vm_compute; reflexivity.
Qed.

(** C4: from the initial detector the knee angles 180, 60, 120, 60, 180 give
    the counts 0, 0, 0, 0, 1: one repetition, not two (as [float]s and as
    [int]s). In general a call on the squat adds one to the count exactly
    when the stored phase is "down" and the knee angle is above 160 and not
    below 70; every other call leaves the count as it was. *)
Theorem squat_dips_count_once :
  (let one_rep (seq : list Py.num) :=
     ∃ d', feed init (knee_frame <$> seq)
           = Some (d', [squat_status 0 "up"; squat_status 0 "down";
                        squat_status 0 "down"; squat_status 0 "down";
                        squat_status 1 "up"])
           ∧ rep_counters d' !! "Squat" = Some 1 in
   one_rep [Py.Float 180; Py.Float 60; Py.Float 120; Py.Float 60; Py.Float 180]
   ∧ one_rep [Py.Int 180; Py.Int 60; Py.Int 120; Py.Int 60; Py.Int 180])
  ∧ ∀ (d : ExerciseDetector) (angles : angle_map) (ph : string) (n : Z),
      current_exercise d = "Squat" →
      last_phase d !! "Squat" = Some ph →
      rep_counters d !! "Squat" = Some n →
      let knee := default (Py.Float 180) (angles !! "knee") in
      ∃ d' st, update d angles = Some (d', st)
               ∧ rep_counters d' !! "Squat" = Some (reps st)
               ∧ reps st = (if Py.gt knee 160 && String.eqb ph "down"
                                && negb (Py.lt knee 70)
                            then n + 1 else n).
Proof.
  split.
  - split; eexists; (split; [vm_compute; reflexivity|]); vm_compute; reflexivity.
  - intros d angles ph n Hcur Hph Hn knee. rewrite <- Hcur in Hph, Hn.
    pose proof (update_known d angles ph n Hph Hn "knee" 70) as Hu.
    rewrite Hcur in Hu. specialize (Hu eq_refl). cbv zeta in Hu. fold knee in Hu.
    rewrite Hu. rewrite <- Hcur.
    destruct (Py.lt knee 70).
    + cbn [negb]. rewrite andb_false_r.
      eexists _, _. split; [done|]. split; [apply stored_current|done].
    + rewrite andb_true_r.
      destruct (Py.gt knee 160 && String.eqb ph "down");
        eexists _, _; (split; [done|]); (split; [apply stored_current|done]).
Qed.

(** C5: from the initial detector, for every finite sequence of knee angles
    that are all at least 70, every call returns, every status has count 0
    (and phase "up"), and the squat count is 0 at the end. *)
Theorem squat_no_descent_no_rep (seq : list Py.num) :
  Forall (λ a, Py.ge a 70 = true) seq →
  ∃ d' sts, feed init (knee_frame <$> seq) = Some (d', sts)
            ∧ length sts = length seq
            ∧ Forall (λ st, reps st = 0) sts
            ∧ rep_counters d' !! "Squat" = Some 0.
Proof.
  intros Hall.
  destruct (feed_squat_idle seq init) as (d' & sts & Hf & Hn & _ & Hsts);
    [reflexivity..|done|].
  exists d', sts. repeat split; try done.
  - clear Hn Hsts Hall. revert Hf. generalize init. revert d' sts.
    induction seq as [|a seq IH]; intros d' sts d Hf.
    + by simplify_eq/=.
    + rewrite fmap_cons, feed_cons in Hf.
      destruct (update d (knee_frame a)) as [r|]; [|done]. cbn [mbind option_bind] in Hf.
      destruct (feed r.1 (knee_frame <$> seq)) as [q|] eqn:Hq; [|done].
      cbn [mbind option_bind] in Hf. simplify_eq. destruct q as [d2 sts2].
      cbn [length snd]. f_equal. by eapply IH.
  - eapply Forall_impl; [exact Hsts|]. by intros st [? _].
Qed.

Lemma squat_no_descent_no_rep_witness :
  ∃ d' sts, feed init (knee_frame <$> [Py.Float 180; Py.Int 70; Py.Float 165.5])
            = Some (d', sts)
            ∧ length sts = length [Py.Float 180; Py.Int 70; Py.Float 165.5]
            ∧ Forall (λ st, reps st = 0) sts
            ∧ rep_counters d' !! "Squat" = Some 0.
Proof.
  apply (squat_no_descent_no_rep [Py.Float 180; Py.Int 70; Py.Float 165.5]).
  repeat constructor.
Defined.

(** C6: a call of [update] that returns leaves the count and the phase of
    every exercise other than the selected one as they were, and does not
    change the selection; [set_exercise] changes neither dictionary, so
    changing the selection resets and advances nothing. *)
Theorem update_frame (d d' : ExerciseDetector) (angles : angle_map)
    (st : ExerciseStatus) (e : string) :
  update d angles = Some (d', st) →
  e ≠ current_exercise d →
  rep_counters d' !! e = rep_counters d !! e
  ∧ last_phase d' !! e = last_phase d !! e
  ∧ current_exercise d' = current_exercise d
  ∧ ∀ name, rep_counters (set_exercise d' name) = rep_counters d'
            ∧ last_phase (set_exercise d' name) = last_phase d'.
Proof.
  intros Hu He.
  destruct (update_inv d d' angles st Hu) as (ph & n & ph' & n' & _ & _ & -> & _).
  destruct (stored_other d ph' n' e He) as [-> ->].
  repeat split; apply set_exercise_maps.
Qed.

Lemma update_frame_witness :
  rep_counters (stored squat_down "up" (0 + 1)) !! "Lunge"
    = rep_counters squat_down !! "Lunge"
  ∧ last_phase (stored squat_down "up" (0 + 1)) !! "Lunge"
    = last_phase squat_down !! "Lunge"
  ∧ current_exercise (stored squat_down "up" (0 + 1)) = current_exercise squat_down
  ∧ ∀ name,
      rep_counters (set_exercise (stored squat_down "up" (0 + 1)) name)
        = rep_counters (stored squat_down "up" (0 + 1))
      ∧ last_phase (set_exercise (stored squat_down "up" (0 + 1)) name)
        = last_phase (stored squat_down "up" (0 + 1)).
Proof.
  apply (update_frame squat_down _ (knee_frame (Py.Float 170))
           (status_of squat_down "up" (0 + 1)) "Lunge").
  - vm_compute. reflexivity.
  - discriminate.
Defined.

(** C7: after any sequence of [update] and [set_exercise] calls from the
    initial detector, and one more call of either kind, no call has raised
    and, for each of the three exercises, the count before the last call is
    not negative, the count after it is not smaller, and the phase before
    and after it is "up" or "down". *)
Theorem counters_monotone (cs : list call) (c : call) :
  ∃ d d', run init cs = Some d ∧ step d c = Some d'
    ∧ Forall (λ e,
        ∃ n n' p p',
          rep_counters d !! e = Some n ∧ rep_counters d' !! e = Some n'
          ∧ 0 ≤ n ≤ n'
          ∧ last_phase d !! e = Some p ∧ last_phase d' !! e = Some p'
          ∧ (p = "up" ∨ p = "down") ∧ (p' = "up" ∨ p' = "down"))
        exercises.
Proof.
  destruct (run_wf cs init wf_init) as (d & Hrun & Hwf).
  destruct (step_mono d c Hwf) as (d' & Hstep & Hwf' & Hmono).
  exists d, d'. split; [done|]. split; [done|].
  apply Forall_forall. intros e He.
  destruct (wf_count d Hwf e He) as (n & Hn & H0).
  destruct (Hmono e n Hn) as (n' & Hn' & Hle).
  destruct (wf_phase d Hwf e He) as (p & Hp & Hpud).
  destruct (wf_phase d' Hwf' e He) as (p' & Hp' & Hpud').
  exists n, n', p, p'. auto 10.
Qed.

(** C10: on every detector reached from the initial one by [update] and
    [set_exercise] calls, [set_exercise] with a name other than "Squat",
    "Push-up" and "Lunge" returns the detector unchanged (selection, counts
    and phases), so a following [update] does what it would have done. *)
Theorem set_exercise_unknown (cs : list call) (d : ExerciseDetector)
    (name : string) :
  run init cs = Some d →
  name ∉ exercises →
  set_exercise d name = d
  ∧ ∀ angles, update (set_exercise d name) angles = update d angles.
Proof.
  intros Hrun Hname.
  destruct (run_wf cs init wf_init) as (d0 & Hrun' & Hwf).
  rewrite Hrun in Hrun'. simplify_eq.
  assert (Hset : set_exercise d0 name = d0).
  { unfold set_exercise. case_decide as Hin; [|done].
    rewrite (wf_count_dom d0 Hwf name Hname) in Hin. by destruct Hin. }
  split; [done|]. intros angles. by rewrite Hset.
Qed.

Lemma set_exercise_unknown_witness :
  set_exercise squat_down "Plank" = squat_down
  ∧ ∀ angles, update (set_exercise squat_down "Plank") angles
              = update squat_down angles.
Proof.
  apply (set_exercise_unknown [Update (knee_frame (Py.Float 60))]).
  - vm_compute. reflexivity.
  - unfold exercises. rewrite !not_elem_of_cons. repeat split; try discriminate.
    apply not_elem_of_nil.
Defined.

(** ** Properties of the feedback rules *)

(** C9: for the squat, back 140, knee 100 and flag 1 give exactly
    "Keep your back straight", although the depth rule matches this knee
    and flag: with the back raised to 170 and the same knee and flag the
    feedback is "Go lower". In general the squat rules are tried in order
    and the first match wins: a back angle below 150 gives
    "Keep your back straight" whatever the other angles are; otherwise a
    knee angle above 90 with a flag above 0 gives "Go lower"; otherwise the
    feedback is "Great squat form". *)
Theorem squat_back_rule_first :
  (∀ joints, get_feedback "Squat" squat_slouch joints = "Keep your back straight")
  ∧ (∀ joints, get_feedback "Squat" squat_shallow joints = "Go lower")
  ∧ ∀ angles joints,
      let back := default (Py.Float 180) (angles !! "back") in
      let knee := default (Py.Float 180) (angles !! "knee") in
      let flag := default (Py.Int 0) (angles !! "phase_down_score") in
      (Py.lt back 150 = true →
       get_feedback "Squat" angles joints = "Keep your back straight")
      ∧ (Py.lt back 150 = false → Py.gt knee 90 && Py.gt flag 0 = true →
         get_feedback "Squat" angles joints = "Go lower")
      ∧ (Py.lt back 150 = false → Py.gt knee 90 && Py.gt flag 0 = false →
         get_feedback "Squat" angles joints = "Great squat form").
Proof.
  split; [|split].
  - intros joints. vm_compute. reflexivity.
  - intros joints. vm_compute. reflexivity.
  - intros angles joints back knee flag. unfold get_feedback.
    change (String.eqb "Squat" "Squat") with true. cbv iota zeta.
    fold back knee flag.
    repeat split.
    + by intros ->.
    + by intros -> ->.
    + by intros -> ->.
Qed.

(** ** Properties of the front-leg choice *)

Lemma front_leg_level (lh rh lk rk la ra : pixel) :
  lk.2 = rk.2 → lk ≠ rk → front_leg lh rh lk rk la ra = (rh, rk, ra).
Proof.
  intros Hy Hne. unfold front_leg.
  replace (rk.2 <? lk.2) with false by (symmetry; apply Z.ltb_ge; lia).
  by rewrite !decide_False by done.
Qed.

(** C2, as stated, fails: with the knees at (300, 400) and (340, 400), the
    same height, the front leg is the right one, which is another triple
    of points than the left one; the "front_knee" entry is the angle of the
    right hip, knee and ankle, and with a [calculate_angle] that tells
    vertices apart it differs from the angle of the left ones. *)
Lemma level_knees_pick_right :
  level_knees !! "left_knee" = Some (300, 400)
  ∧ level_knees !! "right_knee" = Some (340, 400)
  ∧ front_leg (305, 320) (335, 320) (300, 400) (340, 400) (298, 470) (342, 470)
    = ((335, 320), (340, 400), (342, 470))
  ∧ ((335, 320), (340, 400), (342, 470)) ≠ ((305, 320), (300, 400), (298, 470))
  ∧ (∀ calculate_angle,
       compute_angles calculate_angle level_knees ≫= (λ m, m !! "front_knee")
       = Some (Py.Float (calculate_angle (px (335, 320)) (px (340, 400))
                                         (px (342, 470)))))
  ∧ compute_angles vertex_x level_knees ≫= (λ m, m !! "front_knee")
    ≠ Some (Py.Float (vertex_x (px (305, 320)) (px (300, 400)) (px (298, 470)))).
Proof.
  split; [vm_compute; reflexivity|]. split; [vm_compute; reflexivity|].
  split; [vm_compute; reflexivity|]. split; [discriminate|].
  assert (Hall : ∀ calculate_angle,
    compute_angles calculate_angle level_knees ≫= (λ m, m !! "front_knee")
    = Some (Py.Float (calculate_angle (px (335, 320)) (px (340, 400))
                                      (px (342, 470))))).
  { intros ca. unfold compute_angles.
    repeat (match goal with
            | |- context [level_knees !! ?k] =>
                let v := eval vm_compute in (level_knees !! k) in
                change (level_knees !! k) with v
            end; cbn [mbind option_bind]).
    rewrite front_leg_level by (reflexivity || discriminate).
    cbn [mbind option_bind].
    by rewrite !lookup_insert_ne, lookup_insert_eq by discriminate. }
  split; [exact Hall|].
  rewrite Hall. intros H.
  apply (f_equal (λ o, match o with
                       | Some (Py.Float x) => PrimFloat.eqb x 300
                       | _ => false
                       end)) in H.
  vm_compute in H. discriminate.
Qed.

(** C2 (amended): when every landmark that [compute_angles] reads is
    present and the two knees have the same vertical coordinate but are
    different points, [compute_angles] returns and its "front_knee" entry is
    the angle of the right hip, right knee and right ankle: the comparison
    is strict, so a tie takes the [else] branch. The main loop's front knee
    and front toe are then the right ones too. *)
Theorem front_leg_tie_is_right (calculate_angle : point → point → point → float)
    (landmarks : pixel_map)
    (left_shoulder right_shoulder left_elbow right_elbow left_wrist right_wrist
     left_hip right_hip left_knee right_knee left_ankle right_ankle
     right_toe : pixel) :
  landmarks !! "left_shoulder" = Some left_shoulder →
  landmarks !! "right_shoulder" = Some right_shoulder →
  landmarks !! "left_elbow" = Some left_elbow →
  landmarks !! "right_elbow" = Some right_elbow →
  landmarks !! "left_wrist" = Some left_wrist →
  landmarks !! "right_wrist" = Some right_wrist →
  landmarks !! "left_hip" = Some left_hip →
  landmarks !! "right_hip" = Some right_hip →
  landmarks !! "left_knee" = Some left_knee →
  landmarks !! "right_knee" = Some right_knee →
  landmarks !! "left_ankle" = Some left_ankle →
  landmarks !! "right_ankle" = Some right_ankle →
  landmarks !! "right_foot_index" = Some right_toe →
  left_knee.2 = right_knee.2 →
  left_knee ≠ right_knee →
  (∃ angles, compute_angles calculate_angle landmarks = Some angles
             ∧ angles !! "front_knee"
               = Some (Py.Float (calculate_angle (px right_hip) (px right_knee)
                                                 (px right_ankle))))
  ∧ front_joints landmarks
    = Some (<["front_knee" := right_knee]> (<["front_toe" := right_toe]> ∅)).
Proof.
  intros Hls Hrs Hle Hre Hlw Hrw Hlh Hrh Hlk Hrk Hla Hra Hrt Hy Hne.
  split.
  - unfold compute_angles.
    rewrite Hls, Hrs, Hle, Hre, Hlw, Hrw, Hlh, Hrh, Hlk, Hrk, Hla, Hra.
    cbn [mbind option_bind].
    rewrite (front_leg_level _ _ _ _ _ _ Hy Hne).
    eexists. split; [reflexivity|].
    by rewrite !lookup_insert_ne, lookup_insert_eq by discriminate.
  - unfold front_joints. rewrite Hlk, Hrk. cbn [mbind option_bind].
    replace (right_knee.2 <? left_knee.2) with false
      by (symmetry; apply Z.ltb_ge; lia).
    by rewrite Hrt.
Qed.

Lemma front_leg_tie_is_right_witness :
  (∃ angles, compute_angles vertex_x level_knees = Some angles
             ∧ angles !! "front_knee"
               = Some (Py.Float (vertex_x (px (335, 320)) (px (340, 400))
                                          (px (342, 470)))))
  ∧ front_joints level_knees
    = Some (<["front_knee" := (340, 400)]> (<["front_toe" := (350, 480)]> ∅)).
Proof.
  apply (front_leg_tie_is_right vertex_x level_knees
           (300, 200) (340, 200) (290, 250) (350, 250) (285, 300) (355, 300)
           (305, 320) (335, 320) (300, 400) (340, 400) (298, 470) (342, 470)
           (350, 480));
    first [ vm_compute; reflexivity | discriminate ].
Defined.

(** ** Further properties of the detector *)

(** The status returned by [update] is a snapshot of what the call stored:
    the selected exercise, which the call does not change, and the count
    and phase now held for it. *)
Theorem update_status_snapshot (d d' : ExerciseDetector) (angles : angle_map)
    (st : ExerciseStatus) :
  update d angles = Some (d', st) →
  exercise st = current_exercise d
  ∧ current_exercise d' = current_exercise d
  ∧ rep_counters d' !! current_exercise d' = Some (reps st)
  ∧ last_phase d' !! current_exercise d' = Some (phase st).
Proof.
  intros Hu.
  destruct (update_inv d d' angles st Hu) as (ph & n & ph' & n' & _ & _ & -> & ->).
  destruct (stored_current d ph' n') as [Hn Hp]. done.
Qed.

Lemma update_status_snapshot_witness :
  exercise (status_of squat_down "up" (0 + 1)) = current_exercise squat_down
  ∧ current_exercise (stored squat_down "up" (0 + 1)) = current_exercise squat_down
  ∧ rep_counters (stored squat_down "up" (0 + 1))
      !! current_exercise (stored squat_down "up" (0 + 1))
    = Some (reps (status_of squat_down "up" (0 + 1)))
  ∧ last_phase (stored squat_down "up" (0 + 1))
      !! current_exercise (stored squat_down "up" (0 + 1))
    = Some (phase (status_of squat_down "up" (0 + 1))).
Proof.
  apply (update_status_snapshot squat_down _ (knee_frame (Py.Float 170))).
  vm_compute. reflexivity.
Defined.

Lemma update_some_iff (d : ExerciseDetector) (angles : angle_map) :
  is_Some (update d angles)
  ↔ is_Some (last_phase d !! current_exercise d)
    ∧ is_Some (rep_counters d !! current_exercise d).
Proof.
  split.
  - intros [[d' st] Hu].
    destruct (update_inv d d' angles st Hu) as (ph & n & _ & _ & -> & -> & _).
    eauto.
  - intros [[ph Hph] [n Hn]].
    destruct (characteristic (current_exercise d)) as [[key low]|] eqn:Hc.
    + pose proof (update_known d angles ph n Hph Hn key low Hc) as Hu.
      cbv zeta in Hu. rewrite Hu.
      destruct (Py.lt _ low); [|destruct (_ && _)]; eauto.
    + rewrite (update_untracked d angles ph n Hph Hn Hc). eauto.
Qed.

(** [update] reads nothing but the selection and the two entries of the
    selected exercise: on two detectors that agree on these, the same angle
    map gives the same status (or the same [KeyError]). *)
Theorem update_reads_selected_only (d1 d2 : ExerciseDetector) (angles : angle_map) :
  current_exercise d1 = current_exercise d2 →
  last_phase d1 !! current_exercise d1 = last_phase d2 !! current_exercise d2 →
  rep_counters d1 !! current_exercise d1 = rep_counters d2 !! current_exercise d2 →
  snd <$> update d1 angles = snd <$> update d2 angles.
Proof.
  intros Hcur Hph Hn.
  destruct (update d1 angles) as [[d1' st1]|] eqn:Hu1.
  - destruct (update_inv d1 d1' angles st1 Hu1) as (ph & n & _ & _ & Hp1 & Hn1 & _).
    assert (Hp2 := Hp1). assert (Hn2 := Hn1). rewrite Hph in Hp2. rewrite Hn in Hn2.
    destruct (characteristic (current_exercise d1)) as [[key low]|] eqn:Hc.
    + pose proof (update_known d1 angles ph n Hp1 Hn1 key low Hc) as Hk1.
      assert (Hc2 := Hc). rewrite Hcur in Hc2.
      pose proof (update_known d2 angles ph n Hp2 Hn2 key low Hc2) as Hk2.
      cbv zeta in Hk1, Hk2. rewrite <- Hu1, Hk1, Hk2. unfold status_of.
      rewrite Hcur.
      destruct (Py.lt _ low); [|destruct (_ && _)]; reflexivity.
    + assert (Hc2 := Hc). rewrite Hcur in Hc2.
      rewrite <- Hu1, (update_untracked d1 angles ph n Hp1 Hn1 Hc),
        (update_untracked d2 angles ph n Hp2 Hn2 Hc2).
      unfold status_of. by rewrite Hcur.
  - destruct (update d2 angles) as [r|] eqn:Hu2; [|done]. exfalso.
    assert (H2 : is_Some (update d2 angles)) by (rewrite Hu2; eauto).
    apply update_some_iff in H2. rewrite <- Hph, <- Hn in H2.
    apply (update_some_iff d1 angles) in H2. rewrite Hu1 in H2. by destruct H2.
Qed.

Lemma update_reads_selected_only_witness :
  snd <$> update squat_down (knee_frame (Py.Float 170))
  = snd <$> update {| rep_counters := <["Squat" := 0]> ∅;
                      last_phase := <["Squat" := "down"]> ∅;
                      current_exercise := "Squat" |}
                   (knee_frame (Py.Float 170)).
Proof.
  apply (update_reads_selected_only squat_down
           {| rep_counters := <["Squat" := 0]> ∅;
              last_phase := <["Squat" := "down"]> ∅;
              current_exercise := "Squat" |});
    vm_compute; reflexivity.
Defined.

(** *** Thresholds *)

(** A binary64 value above 160 is not below 80 (nor below 70). *)
Lemma above_160_not_below (f : float) (low : Z) :
  low = 70 ∨ low = 80 →
  PrimFloat.ltb (Py.float_of_int 160) f = true →
  PrimFloat.ltb f (Py.float_of_int low) = false.
Proof.
  intros Hlow. rewrite !ltb_spec. unfold SFltb.
  assert (H160 : Prim2SF (Py.float_of_int 160)
                 = S754_finite false 5629499534213120 (-45))
    by (vm_compute; reflexivity).
  assert (Hl : ∃ m, Prim2SF (Py.float_of_int low) = S754_finite false m (-46)).
  { destruct Hlow as [-> | ->]; eexists; vm_compute; reflexivity. }
  destruct Hl as [m ->]. rewrite H160.
  destruct (Prim2SF f) as [s|s| |s mf e];
    try (simpl; done); try (destruct s; simpl; done).
  destruct s; [simpl; done|]. unfold SFcompare.
  destruct (Z.compare_spec (-45) e), (Z.compare_spec e (-46)); try done; lia.
Qed.

Lemma gt_160_not_lt (x : Py.num) (low : Z) :
  low = 70 ∨ low = 80 → Py.gt x 160 = true → Py.lt x low = false.
Proof.
  destruct x as [z|f]; simpl.
  - intros [-> | ->]; lia.
  - apply above_160_not_below.
Qed.

(** A NaN is neither below nor above any threshold. *)
Lemma nan_compares_false (c : Z) :
  Py.lt (Py.Float nan) c = false ∧ Py.gt (Py.Float nan) c = false.
Proof.
  simpl. rewrite !ltb_spec. unfold SFltb.
  assert (Hnan : Prim2SF nan = S754_nan) by (vm_compute; reflexivity).
  rewrite Hnan. split; [done|].
  by destruct (Prim2SF (Py.float_of_int c)) as [| | |].
Qed.

Lemma characteristic_low (e key : string) (low : Z) :
  characteristic e = Some (key, low) → low = 70 ∨ low = 80.
Proof.
  unfold characteristic.
  repeat (destruct (String.eqb _ _); [intros [= _ <-]; auto|]). done.
Qed.

Lemma stored_id (d : ExerciseDetector) (ph : string) (n : Z) :
  last_phase d !! current_exercise d = Some ph →
  rep_counters d !! current_exercise d = Some n →
  stored d ph n = d.
Proof.
  intros Hph Hn. unfold stored.
  rewrite (insert_id (rep_counters d) _ _ Hn), (insert_id (last_phase d) _ _ Hph).
  by destruct d.
Qed.

(** A frame whose characteristic angle is a NaN changes nothing, in either
    phase: the detector after the call is the detector before it, and the
    status is the stored phase and count. *)
Theorem update_ignores_nan (d : ExerciseDetector) (angles : angle_map)
    (key : string) (low : Z) (ph : string) (n : Z) :
  characteristic (current_exercise d) = Some (key, low) →
  angles !! key = Some (Py.Float nan) →
  last_phase d !! current_exercise d = Some ph →
  rep_counters d !! current_exercise d = Some n →
  update d angles = Some (d, status_of d ph n).
Proof.
  intros Hc Hk Hph Hn.
  pose proof (update_known d angles ph n Hph Hn key low Hc) as Hu.
  cbv zeta in Hu. rewrite Hk in Hu. cbn [from_option id] in Hu.
  destruct (nan_compares_false low) as [Hlt _].
  destruct (nan_compares_false 160) as [_ Hgt].
  rewrite Hlt, Hgt in Hu. cbn [andb] in Hu.
  by rewrite Hu, (stored_id d ph n Hph Hn).
Qed.

Lemma update_ignores_nan_witness :
  update squat_down (knee_frame (Py.Float nan))
  = Some (squat_down, status_of squat_down "down" 0).
Proof.
  apply (update_ignores_nan squat_down _ "knee" 70); reflexivity.
Defined.

(** One full cycle counts one repetition, for each of the three exercises:
    from any phase and count [n], a frame with the characteristic angle
    below the exercise's threshold followed by a frame with it above 160
    returns the statuses ([n], "down") and ([n + 1], "up"). *)
Theorem full_cycle_counts_one (d : ExerciseDetector) (down_frame up_frame : angle_map)
    (key : string) (low : Z) (ph : string) (n : Z) :
  characteristic (current_exercise d) = Some (key, low) →
  last_phase d !! current_exercise d = Some ph →
  rep_counters d !! current_exercise d = Some n →
  Py.lt (default (Py.Float 180) (down_frame !! key)) low = true →
  Py.gt (default (Py.Float 180) (up_frame !! key)) 160 = true →
  ∃ d', feed d [down_frame; up_frame]
        = Some (d', [status_of d "down" n; status_of d "up" (n + 1)])
        ∧ rep_counters d' !! current_exercise d = Some (n + 1)
        ∧ last_phase d' !! current_exercise d = Some "up".
Proof.
  intros Hc Hph Hn Hdown Hup.
  pose proof (update_known d down_frame ph n Hph Hn key low Hc) as Hu1.
  cbv zeta in Hu1. rewrite Hdown in Hu1.
  destruct (stored_current d "down" n) as [Hn1 Hph1].
  pose proof (update_known (stored d "down" n) up_frame "down" n Hph1 Hn1 key low Hc)
    as Hu2.
  cbv zeta in Hu2.
  rewrite (gt_160_not_lt _ low (characteristic_low _ _ _ Hc) Hup), Hup in Hu2.
  change (String.eqb "down" "down") with true in Hu2. cbn [andb] in Hu2.
  exists (stored (stored d "down" n) "up" (n + 1)).
  rewrite feed_cons, Hu1. cbn [mbind option_bind fst snd].
  rewrite feed_cons, Hu2. cbn [mbind option_bind fst snd feed].
  split; [done|]. apply (stored_current (stored d "down" n)).
Qed.

Lemma full_cycle_counts_one_witness :
  ∃ d', feed (set_exercise init "Lunge")
          [ {[ "front_knee" := Py.Float 75 ]}; {[ "front_knee" := Py.Int 170 ]} ]
        = Some (d', [status_of (set_exercise init "Lunge") "down" 0;
                     status_of (set_exercise init "Lunge") "up" (0 + 1)])
        ∧ rep_counters d' !! current_exercise (set_exercise init "Lunge")
          = Some (0 + 1)
        ∧ last_phase d' !! current_exercise (set_exercise init "Lunge") = Some "up".
Proof.
  apply (full_cycle_counts_one (set_exercise init "Lunge") _ _ "front_knee" 80 "up");
    vm_compute; reflexivity.
Defined.

(** *** Sequences of frames *)

Lemma feed_bounds (frames : list angle_map) :
  ∀ (d : ExerciseDetector) (key : string) (low : Z) (ph : string) (n : Z),
    characteristic (current_exercise d) = Some (key, low) →
    last_phase d !! current_exercise d = Some ph →
    rep_counters d !! current_exercise d = Some n →
    ∃ d' sts ph' n',
      feed d frames = Some (d', sts)
      ∧ current_exercise d' = current_exercise d
      ∧ last_phase d' !! current_exercise d = Some ph'
      ∧ rep_counters d' !! current_exercise d = Some n'
      ∧ length sts = length frames
      ∧ n ≤ n'
      ∧ n' + is_down ph' ≤ n + is_down ph + descents key low frames
      ∧ 2 * n' + is_down ph' ≤ 2 * n + is_down ph + Z.of_nat (length frames).
Proof.
  induction frames as [|angles frames IH]; intros d key low ph n Hc Hph Hn.
  - exists d, [], ph, n. cbn [feed descents length]. repeat split; try done; lia.
  - pose proof (update_known d angles ph n Hph Hn key low Hc) as Hu.
    cbv zeta in Hu. fold (below key low angles) in Hu.
    assert (Hstep : ∃ ph1 n1,
      update d angles = Some (stored d ph1 n1, status_of d ph1 n1)
      ∧ n ≤ n1
      ∧ n1 + is_down ph1 ≤ n + is_down ph + (if below key low angles then 1 else 0)
      ∧ 2 * n1 + is_down ph1 ≤ 2 * n + is_down ph + 1).
    { destruct (below key low angles).
      - exists "down", n. split; [done|]. change (is_down "down") with 1.
        unfold is_down. destruct (String.eqb ph "down"); lia.
      - destruct (Py.gt _ 160); cbn [andb] in Hu.
        + destruct (String.eqb ph "down") eqn:Hd.
          * exists "up", (n + 1). split; [done|]. change (is_down "up") with 0.
            unfold is_down. rewrite Hd. lia.
          * exists ph, n. split; [done|]. lia.
        + exists ph, n. split; [done|]. lia. }
    destruct Hstep as (ph1 & n1 & Hu1 & Hle1 & Hd1 & Hf1).
    destruct (stored_current d ph1 n1) as [Hn1 Hph1].
    destruct (IH (stored d ph1 n1) key low ph1 n1 Hc Hph1 Hn1)
      as (d' & sts & ph' & n' & Hf & Hcur & Hph' & Hn' & Hlen & Hle & Hd & Hfr).
    exists d', (status_of d ph1 n1 :: sts), ph', n'.
    rewrite feed_cons, Hu1. cbn [mbind option_bind fst snd]. rewrite Hf.
    cbn [mbind option_bind fst snd descents length].
    change (current_exercise (stored d ph1 n1)) with (current_exercise d) in *.
    repeat split; try done; lia.
Qed.

(** A sequence of frames for a tracked exercise always returns, one status
    per frame, and counts at most one repetition per descent: the count
    rises by no more than the number of frames whose characteristic angle
    was below the threshold, plus one if the phase was "down" to begin with. *)
Theorem reps_bounded_by_descents (d : ExerciseDetector) (frames : list angle_map)
    (key : string) (low : Z) (ph : string) (n : Z) :
  characteristic (current_exercise d) = Some (key, low) →
  last_phase d !! current_exercise d = Some ph →
  rep_counters d !! current_exercise d = Some n →
  ∃ d' sts n',
    feed d frames = Some (d', sts)
    ∧ length sts = length frames
    ∧ rep_counters d' !! current_exercise d = Some n'
    ∧ n ≤ n' ≤ n + is_down ph + descents key low frames.
Proof.
  intros Hc Hph Hn.
  destruct (feed_bounds frames d key low ph n Hc Hph Hn)
    as (d' & sts & ph' & n' & Hf & _ & _ & Hn' & Hlen & Hle & Hd & _).
  exists d', sts, n'. repeat split; try done.
  unfold is_down in *. destruct (String.eqb ph' "down"); lia.
Qed.

Lemma reps_bounded_by_descents_witness :
  ∃ d' sts n',
    feed init (knee_frame <$> [Py.Int 60; Py.Int 170; Py.Int 100; Py.Int 170])
    = Some (d', sts)
    ∧ length sts
      = length (knee_frame <$> [Py.Int 60; Py.Int 170; Py.Int 100; Py.Int 170])
    ∧ rep_counters d' !! current_exercise init = Some n'
    ∧ 0 ≤ n' ≤ 0 + is_down "up"
               + descents "knee" 70
                   (knee_frame <$> [Py.Int 60; Py.Int 170; Py.Int 100; Py.Int 170]).
Proof.
  apply (reps_bounded_by_descents init _ "knee" 70 "up" 0); reflexivity.
Defined.

(** A repetition takes at least two frames: after any number of frames for
    a tracked exercise, twice the rise of the count is at most the number
    of frames, plus one if the phase was "down" to begin with. *)
Theorem two_frames_per_rep (d : ExerciseDetector) (frames : list angle_map)
    (key : string) (low : Z) (ph : string) (n : Z) :
  characteristic (current_exercise d) = Some (key, low) →
  last_phase d !! current_exercise d = Some ph →
  rep_counters d !! current_exercise d = Some n →
  ∃ d' sts n',
    feed d frames = Some (d', sts)
    ∧ rep_counters d' !! current_exercise d = Some n'
    ∧ 2 * (n' - n) ≤ Z.of_nat (length frames) + is_down ph.
Proof.
  intros Hc Hph Hn.
  destruct (feed_bounds frames d key low ph n Hc Hph Hn)
    as (d' & sts & ph' & n' & Hf & _ & _ & Hn' & _ & _ & _ & Hfr).
  exists d', sts, n'. repeat split; try done.
  unfold is_down in *. destruct (String.eqb ph' "down"); lia.
Qed.

Lemma two_frames_per_rep_witness :
  ∃ d' sts n',
    feed init (knee_frame <$> [Py.Int 60; Py.Int 170; Py.Int 60])
    = Some (d', sts)
    ∧ rep_counters d' !! current_exercise init = Some n'
    ∧ 2 * (n' - 0)
      ≤ Z.of_nat (length (knee_frame <$> [Py.Int 60; Py.Int 170; Py.Int 60]))
        + is_down "up".
Proof.
  apply (two_frames_per_rep init _ "knee" 70 "up" 0); reflexivity.
Defined.

(** *** Changing the selection *)

Lemma run_app (cs1 cs2 : list call) (d : ExerciseDetector) :
  run d (cs1 ++ cs2) = run d cs1 ≫= λ d1, run d1 cs2.
Proof.
  revert d. induction cs1 as [|c cs1 IH]; intros d; [done|].
  simpl. destruct (step d c) as [d1|]; [|done]. simpl. apply IH.
Qed.

Lemma set_exercise_known (d : ExerciseDetector) (name : string) :
  wf d → name ∈ exercises →
  set_exercise d name
  = {| rep_counters := rep_counters d; last_phase := last_phase d;
       current_exercise := name |}.
Proof.
  intros Hwf Hname. unfold set_exercise. case_decide as Hin; [done|].
  destruct (wf_count d Hwf name Hname) as (n & Hn & _).
  rewrite Hn in Hin. destruct Hin. eauto.
Qed.

Lemma run_updates_frame (frames : list angle_map) (d : ExerciseDetector) :
  wf d →
  ∃ d', run d (Update <$> frames) = Some d' ∧ wf d'
        ∧ current_exercise d' = current_exercise d
        ∧ ∀ e, e ≠ current_exercise d →
               rep_counters d' !! e = rep_counters d !! e
               ∧ last_phase d' !! e = last_phase d !! e.
Proof.
  revert d. induction frames as [|angles frames IH]; intros d Hwf.
  - exists d. simpl. auto.
  - destruct (update_wf d angles Hwf)
      as (ph & n & ph' & n' & _ & _ & Hu & Hud & H0 & Hn').
    assert (Hwf1 : wf (stored d ph' n')) by (apply wf_stored; [done..|lia]).
    destruct (IH _ Hwf1) as (d' & Hrun & Hwf' & Hcur & Hframe).
    exists d'. rewrite fmap_cons. cbn [run step]. rewrite Hu.
    cbn [fmap option_fmap option_map mbind option_bind fst]. rewrite Hrun.
    split; [done|]. split; [done|]. split; [done|].
    intros e He. destruct (Hframe e He) as [-> ->]. by apply stored_other.
Qed.

(** Selecting an exercise by one of the three names always takes effect on
    a detector reached from the initial one, and the last selection wins:
    two selections in a row leave the detector that the second alone
    would. *)
Theorem set_exercise_last_wins (cs : list call) (d : ExerciseDetector)
    (first second : string) :
  run init cs = Some d →
  second ∈ exercises →
  current_exercise (set_exercise d second) = second
  ∧ set_exercise (set_exercise d first) second = set_exercise d second.
Proof.
  intros Hrun Hsecond.
  destruct (run_wf cs init wf_init) as (d0 & Hrun' & Hwf).
  rewrite Hrun in Hrun'. simplify_eq.
  rewrite (set_exercise_known d0 second Hwf Hsecond).
  split; [done|].
  rewrite (set_exercise_known _ second (wf_set_exercise d0 first Hwf) Hsecond).
  by destruct (set_exercise_maps d0 first) as [-> ->].
Qed.

Lemma set_exercise_last_wins_witness :
  current_exercise (set_exercise squat_down "Lunge") = "Lunge"
  ∧ set_exercise (set_exercise squat_down "Push-up") "Lunge"
    = set_exercise squat_down "Lunge".
Proof.
  apply (set_exercise_last_wins [Update (knee_frame (Py.Float 60))]).
  - vm_compute. reflexivity.
  - apply elem_of_exercises. auto.
Defined.

(** Switching away and back pauses an exercise: on a detector reached from
    the initial one, selecting another exercise, feeding it any frames and
    selecting the first exercise again raises nothing and leaves the first
    exercise selected with the count and the phase it had. *)
Theorem switch_away_and_back (cs : list call) (d : ExerciseDetector)
    (other : string) (frames : list angle_map) :
  run init cs = Some d →
  other ∈ exercises →
  other ≠ current_exercise d →
  ∃ d', run d (SetExercise other :: (Update <$> frames)
                 ++ [SetExercise (current_exercise d)]) = Some d'
        ∧ current_exercise d' = current_exercise d
        ∧ rep_counters d' !! current_exercise d
          = rep_counters d !! current_exercise d
        ∧ last_phase d' !! current_exercise d
          = last_phase d !! current_exercise d.
Proof.
  intros Hrun Hother Hne.
  destruct (run_wf cs init wf_init) as (d0 & Hrun' & Hwf).
  rewrite Hrun in Hrun'. simplify_eq.
  set (d1 := set_exercise d0 other).
  assert (Hwf1 : wf d1) by by apply wf_set_exercise.
  assert (Hd1 : d1 = {| rep_counters := rep_counters d0;
                        last_phase := last_phase d0;
                        current_exercise := other |})
    by by apply set_exercise_known.
  destruct (run_updates_frame frames d1 Hwf1) as (d2 & Hrun2 & Hwf2 & Hcur2 & Hframe).
  exists (set_exercise d2 (current_exercise d0)).
  cbn [run step]. cbn [mbind option_bind]. fold d1.
  rewrite run_app, Hrun2. cbn [mbind option_bind run step].
  split; [done|].
  rewrite (set_exercise_known d2 _ Hwf2 (wf_current d0 Hwf)).
  cbn [current_exercise rep_counters last_phase].
  destruct (Hframe (current_exercise d0)) as [-> ->].
  - rewrite Hd1. cbn [current_exercise]. done.
  - by rewrite Hd1.
Qed.

Lemma switch_away_and_back_witness :
  ∃ d', run squat_down
          (SetExercise "Push-up"
             :: (Update <$> [ {[ "elbow" := Py.Int 60 ]}; {[ "elbow" := Py.Int 170 ]} ])
             ++ [SetExercise (current_exercise squat_down)]) = Some d'
        ∧ current_exercise d' = current_exercise squat_down
        ∧ rep_counters d' !! current_exercise squat_down
          = rep_counters squat_down !! current_exercise squat_down
        ∧ last_phase d' !! current_exercise squat_down
          = last_phase squat_down !! current_exercise squat_down.
Proof.
  apply (switch_away_and_back [Update (knee_frame (Py.Float 60))]).
  - vm_compute. reflexivity.
  - apply elem_of_exercises. auto.
  - discriminate.
Defined.

(** ** Further properties of the feedback rules *)

Lemma eqb_other (name e : string) : name ≠ e → String.eqb name e = false.
Proof. intros Hne. by apply String.eqb_neq. Qed.

(** For every name other than the three exercises the feedback is
    "Select an exercise", whatever the angles and the joints. *)
Theorem feedback_unknown_exercise (name : string) (angles : angle_map)
    (joints : pixel_map) :
  name ∉ exercises →
  get_feedback name angles joints = "Select an exercise".
Proof.
  rewrite elem_of_exercises. intros Hname. unfold get_feedback.
  rewrite !eqb_other by (intros ->; tauto). done.
Qed.

Lemma feedback_unknown_exercise_witness :
  get_feedback "" squat_slouch ∅ = "Select an exercise".
Proof.
  apply feedback_unknown_exercise.
  rewrite elem_of_exercises. intros [H | [H | H]]; discriminate.
Defined.

(** The lunge feedback reads the joints only: it is "Don't push knee
    forward" when both the front knee and the front toe are given and the
    knee's horizontal coordinate is greater than the toe's, and
    "Great lunge form" otherwise, also when a joint is missing. *)
Theorem feedback_lunge (angles : angle_map) (joints : pixel_map) :
  get_feedback "Lunge" angles joints
  = match joints !! "front_knee", joints !! "front_toe" with
    | Some knee, Some toe =>
        if decide (toe.1 < knee.1) then "Don't push knee forward"
        else "Great lunge form"
    | _, _ => "Great lunge form"
    end
  ∧ (joints !! "front_knee" = None ∨ joints !! "front_toe" = None →
     get_feedback "Lunge" angles joints = "Great lunge form").
Proof.
  unfold get_feedback.
  change (String.eqb "Lunge" "Squat") with false.
  change (String.eqb "Lunge" "Push-up") with false.
  change (String.eqb "Lunge" "Lunge") with true. cbv iota.
  split.
  - destruct (joints !! "front_knee") as [knee|], (joints !! "front_toe") as [toe|];
      try done.
    case_decide; [by rewrite (proj2 (Z.ltb_lt _ _))|by rewrite (proj2 (Z.ltb_ge _ _)) by lia].
  - intros [-> | ->]; [done|]. by destruct (joints !! "front_knee").
Qed.

(** With no "back" and no "phase_down_score" entry the squat feedback is
    "Great squat form", and with no "elbow" entry the push-up feedback is
    "Lower your body": a missing angle counts as 180 and a missing flag
    as 0. *)
Theorem feedback_missing_angles (angles : angle_map) (joints : pixel_map) :
  (angles !! "back" = None → angles !! "phase_down_score" = None →
   get_feedback "Squat" angles joints = "Great squat form")
  ∧ (angles !! "elbow" = None →
     get_feedback "Push-up" angles joints = "Lower your body").
Proof.
  unfold get_feedback. split.
  - intros -> ->. change (String.eqb "Squat" "Squat") with true. cbv iota zeta.
    cbn [from_option id].
    change (Py.lt (Py.Float 180) 150) with false.
    change (Py.gt (Py.Int 0) 0) with false.
    by rewrite andb_false_r.
  - intros ->. vm_compute. reflexivity.
Qed.

(** On the frame that counts a push-up repetition the feedback is
    "Lower your body": the count rises only when the elbow angle is above
    160, which is the first push-up rule. *)
Theorem pushup_rep_frame_feedback (d d' : ExerciseDetector) (angles : angle_map)
    (st : ExerciseStatus) (n : Z) (joints : pixel_map) :
  current_exercise d = "Push-up" →
  rep_counters d !! "Push-up" = Some n →
  update d angles = Some (d', st) →
  reps st = n + 1 →
  get_feedback (exercise st) angles joints = "Lower your body".
Proof.
  intros Hcur Hn Hu Hreps.
  destruct (update_inv d d' angles st Hu) as (ph & n0 & ph' & n' & Hph & Hn0 & -> & ->).
  rewrite Hcur in Hn0. rewrite Hn in Hn0. simplify_eq.
  pose proof (update_known d angles ph n0 Hph) as Hk.
  rewrite Hcur in Hk. specialize (Hk Hn "elbow" 70 eq_refl). cbv zeta in Hk.
  rewrite Hu in Hk. cbn [status_of exercise reps] in *. rewrite Hcur.
  unfold get_feedback.
  change (String.eqb "Push-up" "Squat") with false.
  change (String.eqb "Push-up" "Push-up") with true. cbv iota zeta.
  destruct (Py.lt _ 70); [simplify_eq; lia|].
  destruct (Py.gt _ 160); [done|].
  cbn [andb] in Hk. simplify_eq. lia.
Qed.

Lemma pushup_rep_frame_feedback_witness :
  get_feedback
    (exercise (status_of (stored (set_exercise init "Push-up") "down" 0) "up" (0 + 1)))
    {[ "elbow" := Py.Float 175 ]} ∅
  = "Lower your body".
Proof.
  apply (pushup_rep_frame_feedback
           (stored (set_exercise init "Push-up") "down" 0)
           (stored (stored (set_exercise init "Push-up") "down" 0) "up" (0 + 1))
           {[ "elbow" := Py.Float 175 ]} _ 0);
    vm_compute; reflexivity.
Defined.

(** ** Properties of the angle aggregator *)

Lemma compute_angles_inv (ca : point → point → point → float)
    (landmarks : pixel_map) (angles : angle_map) :
  compute_angles ca landmarks = Some angles →
  ∃ elbow knee hip shoulder back body_line front : float,
    angles
    = <["elbow" := Py.Float elbow]>
      (<["knee" := Py.Float knee]>
      (<["hip" := Py.Float hip]>
      (<["shoulder" := Py.Float shoulder]>
      (<["back" := Py.Float back]>
      (<["body_line" := Py.Float body_line]>
      (<["front_knee" := Py.Float front]>
      (<["phase_down_score" :=
           Py.Int (if Py.lt (Py.Float knee) 120 then 1 else 0)]> ∅))))))).
Proof.
  unfold compute_angles. intros H.
  repeat (match type of H with
          | context [landmarks !! ?k] => destruct (landmarks !! k); [|done]
          end; cbn [mbind option_bind] in H).
  destruct (front_leg _ _ _ _ _ _) as [[fh fk] fa].
  injection H as <-. eauto 10.
Qed.

Lemma compute_angles_is_some (ca : point → point → point → float)
    (landmarks : pixel_map) :
  is_Some (compute_angles ca landmarks)
  ↔ Forall (λ k, is_Some (landmarks !! k)) read_landmarks.
Proof.
  unfold read_landmarks. rewrite !Forall_cons, Forall_nil. unfold compute_angles.
  split.
  - intros H.
    repeat (match type of H with
            | context [landmarks !! ?k] =>
                destruct (landmarks !! k);
                [|by destruct H]
            end; cbn [mbind option_bind] in H).
    repeat split; eauto.
  - intros (H1 & H2 & H3 & H4 & H5 & H6 & H7 & H8 & H9 & H10 & H11 & H12 & _).
    destruct H1 as [? ->], H2 as [? ->], H3 as [? ->], H4 as [? ->],
      H5 as [? ->], H6 as [? ->], H7 as [? ->], H8 as [? ->], H9 as [? ->],
      H10 as [? ->], H11 as [? ->], H12 as [? ->].
    cbn [mbind option_bind].
    destruct (front_leg _ _ _ _ _ _) as [[fh fk] fa]. eauto.
Qed.

(** [compute_angles] raises a [KeyError] exactly when one of the twelve
    landmarks it reads is missing; the nose and the foot landmarks are not
    needed. *)
Theorem compute_angles_defined_iff (ca : point → point → point → float)
    (landmarks : pixel_map) :
  is_Some (compute_angles ca landmarks)
  ↔ Forall (λ k, is_Some (landmarks !! k)) read_landmarks.
Proof. apply compute_angles_is_some. Qed.

(** The angle map [compute_angles] returns has exactly the eight keys
    elbow, knee, hip, shoulder, back, body_line, front_knee and
    phase_down_score; the knee entry is a [float] and the flag is the
    [int] 1 when that knee angle is below 120 and the [int] 0 otherwise. *)
Theorem compute_angles_shape (ca : point → point → point → float)
    (landmarks : pixel_map) (angles : angle_map) :
  compute_angles ca landmarks = Some angles →
  dom angles = angle_keys
  ∧ ∃ knee : float,
      angles !! "knee" = Some (Py.Float knee)
      ∧ angles !! "phase_down_score"
        = Some (Py.Int (if Py.lt (Py.Float knee) 120 then 1 else 0)).
Proof.
  intros H.
  destruct (compute_angles_inv ca landmarks angles H)
    as (elbow & knee & hip & shoulder & back & body_line & front & ->).
  split.
  - rewrite !dom_insert_L, dom_empty_L. unfold angle_keys. set_solver.
  - exists knee. split.
    + by rewrite lookup_insert_ne, lookup_insert_eq by discriminate.
    + by rewrite !lookup_insert_ne, lookup_insert_eq by discriminate.
Qed.

Lemma compute_angles_shape_witness :
  ∃ angles, compute_angles vertex_x level_knees = Some angles
    ∧ dom angles = angle_keys
    ∧ ∃ knee : float,
        angles !! "knee" = Some (Py.Float knee)
        ∧ angles !! "phase_down_score"
          = Some (Py.Int (if Py.lt (Py.Float knee) 120 then 1 else 0)).
Proof.
  destruct (compute_angles vertex_x level_knees) as [angles|] eqn:H.
  - exists angles. split; [reflexivity|].
    exact (compute_angles_shape vertex_x level_knees angles H).
  - vm_compute in H. discriminate.
Defined.

(** On the angles [compute_angles] returns, the squat feedback is "Go lower"
    only in a window: the back angle is not below 150 and the averaged
    knee angle is above 90 and below 120 (the flag is 1 exactly below
    120); a back angle below 150 gives "Keep your back straight" and every
    other case "Great squat form". *)
Theorem squat_go_lower_window (ca : point → point → point → float)
    (landmarks : pixel_map) (angles : angle_map) (joints : pixel_map) :
  compute_angles ca landmarks = Some angles →
  ∃ back knee : float,
    angles !! "back" = Some (Py.Float back)
    ∧ angles !! "knee" = Some (Py.Float knee)
    ∧ get_feedback "Squat" angles joints
      = if Py.lt (Py.Float back) 150 then "Keep your back straight"
        else if Py.gt (Py.Float knee) 90 && Py.lt (Py.Float knee) 120
             then "Go lower"
             else "Great squat form".
Proof.
  intros H.
  destruct (compute_angles_inv ca landmarks angles H)
    as (elbow & knee & hip & shoulder & back & body_line & front & ->).
  exists back, knee.
  assert (Hb : ∀ m : angle_map,
    <["elbow" := Py.Float elbow]> (<["knee" := Py.Float knee]>
      (<["hip" := Py.Float hip]> (<["shoulder" := Py.Float shoulder]>
      (<["back" := Py.Float back]> m)))) !! "back" = Some (Py.Float back))
    by (intros m; by rewrite !lookup_insert_ne, lookup_insert_eq by discriminate).
  assert (Hk : ∀ m : angle_map,
    <["elbow" := Py.Float elbow]> (<["knee" := Py.Float knee]> m) !! "knee"
    = Some (Py.Float knee))
    by (intros m; by rewrite lookup_insert_ne, lookup_insert_eq by discriminate).
  assert (Hs : ∀ v : Py.num,
    <["elbow" := Py.Float elbow]> (<["knee" := Py.Float knee]>
      (<["hip" := Py.Float hip]> (<["shoulder" := Py.Float shoulder]>
      (<["back" := Py.Float back]> (<["body_line" := Py.Float body_line]>
      (<["front_knee" := Py.Float front]>
      (<["phase_down_score" := v]> ∅))))))) !! "phase_down_score" = Some v)
    by (intros v; by rewrite !lookup_insert_ne, lookup_insert_eq by discriminate).
  split; [apply Hb|]. split; [apply Hk|].
  unfold get_feedback. change (String.eqb "Squat" "Squat") with true.
  cbv iota zeta. rewrite Hb, Hk, Hs. cbn [from_option id].
  destruct (Py.lt (Py.Float back) 150); [done|].
  destruct (Py.lt (Py.Float knee) 120); cbn [Py.gt]; simpl (0 <? _);
    by rewrite ?andb_true_r, ?andb_false_r.
Qed.

Lemma squat_go_lower_window_witness :
  ∃ angles, compute_angles vertex_x level_knees = Some angles
    ∧ ∃ back knee : float,
        angles !! "back" = Some (Py.Float back)
        ∧ angles !! "knee" = Some (Py.Float knee)
        ∧ get_feedback "Squat" angles ∅
          = if Py.lt (Py.Float back) 150 then "Keep your back straight"
            else if Py.gt (Py.Float knee) 90 && Py.lt (Py.Float knee) 120
                 then "Go lower"
                 else "Great squat form".
Proof.
  destruct (compute_angles vertex_x level_knees) as [angles|] eqn:H.
  - exists angles. split; [reflexivity|].
    exact (squat_go_lower_window vertex_x level_knees angles ∅ H).
  - vm_compute in H. discriminate.
Defined.

(** *** The front leg *)

Lemma front_leg_left (lh rh lk rk la ra : pixel) :
  rk.2 < lk.2 → front_leg lh rh lk rk la ra = (lh, lk, la).
Proof.
  intros Hy. unfold front_leg. rewrite (proj2 (Z.ltb_lt _ _) Hy).
  by rewrite !decide_True by done.
Qed.

Lemma front_leg_right (lh rh lk rk la ra : pixel) :
  lk.2 ≤ rk.2 → lk ≠ rk → front_leg lh rh lk rk la ra = (rh, rk, ra).
Proof.
  intros Hy Hne. unfold front_leg. rewrite (proj2 (Z.ltb_ge _ _) Hy).
  by rewrite !decide_False by done.
Qed.

(** The front leg of [compute_angles] is the left hip, knee and ankle when
    the left knee is strictly lower in the image (greater y), and the right
    hip, knee and ankle when it is not and the knees are different points.
    When the two knee points coincide the knee taken is the right one
    while the hip and the ankle are the left ones, because the side is
    recovered by comparing the knee points by value. *)
Theorem front_leg_cases (lh rh lk rk la ra : pixel) :
  (rk.2 < lk.2 → front_leg lh rh lk rk la ra = (lh, lk, la))
  ∧ (lk.2 ≤ rk.2 → lk ≠ rk → front_leg lh rh lk rk la ra = (rh, rk, ra))
  ∧ (lk = rk → front_leg lh rh lk rk la ra = (lh, rk, la)).
Proof.
  split; [apply front_leg_left|]. split; [apply front_leg_right|].
  intros ->. unfold front_leg. rewrite Z.ltb_irrefl.
  by rewrite !decide_True by done.
Qed.

(** The two places that choose the front leg agree when the knees are
    different points: the "front_knee" angle of [compute_angles] and the
    front knee and front toe that the main loop gives to the feedback come
    from the same side, the left one if the left knee is strictly lower in
    the image and the right one otherwise. *)
Theorem front_sides_agree (ca : point → point → point → float)
    (landmarks : pixel_map) (angles : angle_map) (joints : pixel_map)
    (lh rh lk rk la ra : pixel) :
  compute_angles ca landmarks = Some angles →
  front_joints landmarks = Some joints →
  landmarks !! "left_hip" = Some lh → landmarks !! "right_hip" = Some rh →
  landmarks !! "left_knee" = Some lk → landmarks !! "right_knee" = Some rk →
  landmarks !! "left_ankle" = Some la → landmarks !! "right_ankle" = Some ra →
  lk ≠ rk →
  (rk.2 < lk.2
   ∧ angles !! "front_knee" = Some (Py.Float (ca (px lh) (px lk) (px la)))
   ∧ joints !! "front_knee" = Some lk
   ∧ joints !! "front_toe" = landmarks !! "left_foot_index")
  ∨ (lk.2 ≤ rk.2
     ∧ angles !! "front_knee" = Some (Py.Float (ca (px rh) (px rk) (px ra)))
     ∧ joints !! "front_knee" = Some rk
     ∧ joints !! "front_toe" = landmarks !! "right_foot_index").
Proof.
  intros Hca Hfj Hlh Hrh Hlk Hrk Hla Hra Hne.
  unfold compute_angles in Hca. rewrite Hlh, Hrh, Hlk, Hrk, Hla, Hra in Hca.
  repeat (match type of Hca with
          | context [landmarks !! ?k] => destruct (landmarks !! k); [|done]
          end; cbn [mbind option_bind] in Hca).
  unfold front_joints in Hfj. rewrite Hlk, Hrk in Hfj.
  cbn [mbind option_bind] in Hfj.
  destruct (Z.lt_ge_cases rk.2 lk.2) as [Hlt|Hge].
  - left. split; [done|].
    rewrite (front_leg_left _ _ _ _ _ _ Hlt) in Hca.
    rewrite (proj2 (Z.ltb_lt _ _) Hlt) in Hfj.
    destruct (landmarks !! "left_foot_index") as [toe|]; [|done].
    cbn [mbind option_bind] in Hfj. simplify_eq.
    repeat split;
      by rewrite ?lookup_insert_eq, ?lookup_insert_ne, ?lookup_insert_eq by discriminate.
  - right. split; [done|].
    rewrite (front_leg_right _ _ _ _ _ _ Hge Hne) in Hca.
    rewrite (proj2 (Z.ltb_ge _ _) Hge) in Hfj.
    destruct (landmarks !! "right_foot_index") as [toe|]; [|done].
    cbn [mbind option_bind] in Hfj. simplify_eq.
    repeat split;
      by rewrite ?lookup_insert_eq, ?lookup_insert_ne, ?lookup_insert_eq by discriminate.
Qed.

Lemma front_sides_agree_witness :
  ∃ angles joints,
    compute_angles vertex_x level_knees = Some angles
    ∧ front_joints level_knees = Some joints
    ∧ ((400 < 400
        ∧ angles !! "front_knee"
          = Some (Py.Float (vertex_x (px (305, 320)) (px (300, 400)) (px (298, 470))))
        ∧ joints !! "front_knee" = Some (300, 400)
        ∧ joints !! "front_toe" = level_knees !! "left_foot_index")
       ∨ (400 ≤ 400
          ∧ angles !! "front_knee"
            = Some (Py.Float (vertex_x (px (335, 320)) (px (340, 400)) (px (342, 470))))
          ∧ joints !! "front_knee" = Some (340, 400)
          ∧ joints !! "front_toe" = level_knees !! "right_foot_index")).
Proof.
  destruct (compute_angles vertex_x level_knees) as [angles|] eqn:Hca;
    [|vm_compute in Hca; discriminate].
  destruct (front_joints level_knees) as [joints|] eqn:Hfj;
    [|vm_compute in Hfj; discriminate].
  exists angles, joints. split; [reflexivity|]. split; [reflexivity|].
  apply (front_sides_agree vertex_x level_knees angles joints
           (305, 320) (335, 320) (300, 400) (340, 400) (298, 470) (342, 470)
           Hca Hfj);
    first [ vm_compute; reflexivity | discriminate ].
Defined.

(** ** Properties of the main loop *)

Section MainLoopFacts.

Variable ca : point → point → point → float.

(** What one analysis does to the session. *)
Lemma analyse_inv (s s' : Session) (pose_result : option pixel_map)
    (st : ExerciseStatus) (fb : string) :
  wf (detector s) →
  analyse ca s pose_result = Some (s', st, fb) →
  ∃ (ph' : string) (n n' : Z),
    rep_counters (detector s) !! current_exercise (detector s) = Some n
    ∧ 0 ≤ n ≤ n' ∧ (ph' = "up" ∨ ph' = "down")
    ∧ st = status_of (detector s) ph' n'
    ∧ detector s' = stored (detector s) ph' n'
    ∧ ((last_logged_reps s' = last_logged_reps s ∧ logged s' = logged s
        ∧ (pose_result = None
           ∨ ∃ l, last_logged_reps s !! current_exercise (detector s) = Some l
                  ∧ n' ≤ l))
       ∨ (is_Some pose_result
          ∧ ∃ l, last_logged_reps s !! current_exercise (detector s) = Some l
                 ∧ l < n'
                 ∧ last_logged_reps s'
                   = <[current_exercise (detector s) := n']> (last_logged_reps s)
                 ∧ logged s' = (logged s ++ [(current_exercise (detector s), n')])%list)).
Proof.
  intros Hwf Ha.
  assert (Hupd : ∀ angles d1 st1, update (detector s) angles = Some (d1, st1) →
    ∃ (ph' : string) (n n' : Z),
      rep_counters (detector s) !! current_exercise (detector s) = Some n
      ∧ 0 ≤ n ≤ n' ∧ (ph' = "up" ∨ ph' = "down")
      ∧ st1 = status_of (detector s) ph' n'
      ∧ d1 = stored (detector s) ph' n').
  { intros angles d1 st1 Hu.
    destruct (update_wf (detector s) angles Hwf)
      as (ph & n & ph' & n' & _ & Hn & Hu' & Hud & H0 & Hn').
    rewrite Hu in Hu'. simplify_eq. exists ph', n, n'.
    split; [done|]. split; [lia|]. done. }
  unfold analyse in Ha. destruct pose_result as [landmarks|].
  - destruct (compute_angles ca landmarks) as [angles|]; [|done].
    cbn [mbind option_bind] in Ha.
    destruct (update (detector s) angles) as [[d1 st1]|] eqn:Hu; [|done].
    cbn [mbind option_bind] in Ha.
    destruct (front_joints landmarks) as [joints|]; [|done].
    cbn [mbind option_bind] in Ha.
    destruct (Hupd _ _ _ Hu) as (ph' & n & n' & Hn & Hle & Hud & -> & ->).
    cbn [status_of exercise reps] in Ha.
    destruct (last_logged_reps s !! current_exercise (detector s)) as [l|] eqn:Hl;
      [|done].
    cbn [mbind option_bind] in Ha.
    exists ph', n, n'.
    destruct (l <? n') eqn:Hcmp; simplify_eq; cbn [detector last_logged_reps logged].
    + apply Z.ltb_lt in Hcmp. do 5 (split; [done || lia|]).
      right. split; [eauto|]. exists l. done.
    + apply Z.ltb_ge in Hcmp. do 5 (split; [done || lia|]).
      left. do 2 (split; [done|]). right. exists l. done.
  - destruct (update (detector s) ∅) as [[d1 st1]|] eqn:Hu; [|done].
    cbn [mbind option_bind] in Ha. simplify_eq.
    destruct (Hupd _ _ _ Hu) as (ph' & n & n' & Hn & Hle & Hud & -> & ->).
    exists ph', n, n'. cbn [detector last_logged_reps logged].
    do 5 (split; [done || lia|]). left. auto.
Qed.

Lemma analyse_ok (s s' : Session) (pose_result : option pixel_map)
    (st : ExerciseStatus) (fb : string) :
  session_ok s →
  analyse ca s pose_result = Some (s', st, fb) →
  session_ok s'.
Proof.
  intros [Hwf Hlast Hrows Hnd] Ha.
  destruct (analyse_inv s s' pose_result st fb Hwf Ha)
    as (ph' & n & n' & Hn & Hle & Hud & _ & Hd & Hlog).
  set (cur := current_exercise (detector s)) in *.
  assert (Hcnt : ∀ e, rep_counters (detector s') !! e
                      = if decide (e = cur) then Some n'
                        else rep_counters (detector s) !! e).
  { intros e. rewrite Hd. case_decide as He.
    - subst e. apply stored_current.
    - by apply stored_other. }
  split.
  - rewrite Hd. apply wf_stored; [done..|lia].
  - intros e He. destruct (Hlast e He) as (l & m & Hl & Hm & Hlm).
    rewrite Hcnt.
    destruct Hlog as [(-> & _ & _) | (_ & l0 & Hl0 & Hlt & -> & _)].
    + exists l. case_decide as Hec.
      * subst e. fold cur in Hn. rewrite Hn in Hm. simplify_eq.
        exists n'. repeat split; try done; lia.
      * exists m. done.
    + case_decide as Hec.
      * subst e. exists n', n'. rewrite lookup_insert_eq.
        repeat split; try done; lia.
      * exists l, m. by rewrite lookup_insert_ne.
  - intros e r Her.
    destruct Hlog as [(Hl' & Hg & _) | (_ & l0 & Hl0 & Hlt & Hl' & Hg)];
      rewrite Hl'; rewrite Hg in Her.
    + auto.
    + apply elem_of_app in Her as [Her | Her%list_elem_of_singleton].
      * destruct (Hrows e r Her) as (He & l & Hl & Hr). split; [done|].
        destruct (decide (e = cur)) as [->|Hec].
        -- exists n'. rewrite lookup_insert_eq. split; [done|].
           rewrite Hl0 in Hl. simplify_eq. lia.
        -- exists l. by rewrite lookup_insert_ne.
      * simplify_eq. split; [apply (wf_current _ Hwf)|].
        exists n'. rewrite lookup_insert_eq. split; [done|].
        destruct (Hlast cur (wf_current _ Hwf)) as (l & m & Hl & _ & Hlm).
        rewrite Hl0 in Hl. simplify_eq. lia.
  - destruct Hlog as [(_ & Hg & _) | (_ & l0 & Hl0 & Hlt & _ & Hg)];
      rewrite Hg; [done|].
    apply NoDup_app. split; [done|]. split; [|apply NoDup_singleton].
    intros [e r] Her Heq%list_elem_of_singleton. simplify_eq.
    destruct (Hrows _ _ Her) as (_ & l & Hl & Hr).
    fold cur in Hl0. rewrite Hl0 in Hl. simplify_eq. lia.
Qed.

Lemma key_pressed_ok (s : Session) (raw_key : Z) (d : ExerciseDetector) :
  session_ok s →
  key_pressed (detector s) raw_key = Some d →
  session_ok {| detector := d;
                last_logged_reps := last_logged_reps s;
                logged := logged s |}.
Proof.
  intros [Hwf Hlast Hrows Hnd] Hk.
  assert (Hd : wf d ∧ rep_counters d = rep_counters (detector s)).
  { unfold key_pressed in Hk.
    repeat (destruct (_ =? _); [simplify_eq; split;
                                [by apply wf_set_exercise|apply set_exercise_maps]|]).
    destruct (_ =? _); by simplify_eq. }
  destruct Hd as [Hwfd Hrc].
  split; cbn [detector last_logged_reps logged]; try done.
  intros e He. rewrite Hrc. auto.
Qed.

Lemma loop_pass_ok (s s' : Session) (pose_result : option pixel_map)
    (raw_key : Z) (go_on : bool) :
  session_ok s →
  loop_pass ca s pose_result raw_key = Some (s', go_on) →
  session_ok s'.
Proof.
  intros Hok Hp. unfold loop_pass in Hp.
  destruct (analyse ca s pose_result) as [[[s1 st] fb]|] eqn:Ha; [|done].
  cbn [mbind option_bind] in Hp.
  pose proof (analyse_ok _ _ _ _ _ Hok Ha) as Hok1.
  destruct (key_pressed (detector s1) raw_key) as [d|] eqn:Hk; simplify_eq.
  - by apply (key_pressed_ok s1 raw_key).
  - done.
Qed.

Lemma main_loop_ok (passes : list (option pixel_map * Z)) (s s' : Session) :
  session_ok s → main_loop ca s passes = Some s' → session_ok s'.
Proof.
  revert s. induction passes as [|[pose_result raw_key] passes IH]; intros s Hok Hm.
  - by simplify_eq/=.
  - cbn [main_loop] in Hm.
    destruct (loop_pass ca s pose_result raw_key) as [[s1 go_on]|] eqn:Hp; [|done].
    cbn [mbind option_bind] in Hm.
    pose proof (loop_pass_ok _ _ _ _ _ Hok Hp) as Hok1.
    destruct go_on; [by eapply IH|by simplify_eq].
Qed.

Lemma start_ok : session_ok start.
Proof.
  split; unfold start; cbn [detector last_logged_reps logged].
  - apply wf_init.
  - intros e [-> | [-> | ->]]%elem_of_exercises; exists 0, 0;
      repeat split; try (vm_compute; reflexivity); lia.
  - intros e r Her. by apply elem_of_nil in Her.
  - apply NoDup_nil_2.
Qed.

End MainLoopFacts.

Lemma front_joints_is_some (landmarks : pixel_map) :
  Forall (λ k, is_Some (landmarks !! k)) loop_landmarks →
  is_Some (front_joints landmarks).
Proof.
  unfold loop_landmarks, read_landmarks. cbn [app].
  rewrite !Forall_cons, Forall_nil.
  intros (_ & _ & _ & _ & _ & _ & _ & _ & [lk Hlk] & [rk Hrk] & _ & _
          & [lt Hlt] & [rt Hrt] & _).
  unfold front_joints. rewrite Hlk, Hrk. cbn [mbind option_bind].
  destruct (_ <? _); rewrite ?Hlt, ?Hrt; cbn [mbind option_bind]; eauto.
Qed.

Lemma analyse_is_some (ca : point → point → point → float) (s : Session)
    (pose_result : option pixel_map) :
  session_ok s →
  (∀ landmarks, pose_result = Some landmarks →
                Forall (λ k, is_Some (landmarks !! k)) loop_landmarks) →
  is_Some (analyse ca s pose_result).
Proof.
  intros Hok Hpose. unfold analyse.
  assert (Hupd : ∀ angles, ∃ d st,
    update (detector s) angles = Some (d, st)
    ∧ exercise st = current_exercise (detector s)).
  { intros angles.
    destruct (update_wf (detector s) angles (ok_detector s Hok))
      as (ph & n & ph' & n' & _ & _ & Hu & _).
    eauto. }
  destruct pose_result as [landmarks|].
  - specialize (Hpose landmarks eq_refl).
    assert (Hca : is_Some (compute_angles ca landmarks)).
    { apply compute_angles_is_some. unfold loop_landmarks in Hpose.
      by apply Forall_app in Hpose as [? _]. }
    destruct Hca as [angles ->]. cbn [mbind option_bind].
    destruct (Hupd angles) as (d & st & -> & Hst). cbn [mbind option_bind].
    destruct (front_joints_is_some landmarks Hpose) as [joints ->].
    cbn [mbind option_bind].
    destruct (ok_last s Hok (exercise st)) as (l & n & -> & _).
    { rewrite Hst. apply (wf_current _ (ok_detector s Hok)). }
    cbn [mbind option_bind]. destruct (_ <? _); eauto.
  - destruct (Hupd ∅) as (d & st & -> & _). cbn [mbind option_bind]. eauto.
Qed.

(** When every detected pose has the twelve landmarks of [compute_angles]
    and the two foot landmarks, the loop raises no [KeyError], whatever the
    frames and the keys are. *)
Theorem main_loop_never_raises (ca : point → point → point → float)
    (passes : list (option pixel_map * Z)) :
  Forall (λ p, ∀ landmarks, p.1 = Some landmarks →
               Forall (λ k, is_Some (landmarks !! k)) loop_landmarks) passes →
  is_Some (main_loop ca start passes).
Proof.
  intros Hall. pose proof start_ok as Hok. revert Hok. generalize start.
  induction Hall as [|[pose_result raw_key] passes Hp Hall IH]; intros s Hok.
  - cbn [main_loop]. eauto.
  - cbn [main_loop].
    destruct (analyse_is_some ca s pose_result Hok Hp) as [[[s1 st] fb] Ha].
    assert (Hpass : ∃ s2 go_on, loop_pass ca s pose_result raw_key = Some (s2, go_on)).
    { unfold loop_pass. rewrite Ha. cbn [mbind option_bind].
      destruct (key_pressed _ _); eauto. }
    destruct Hpass as (s2 & go_on & Hpass). rewrite Hpass.
    cbn [mbind option_bind]. destruct go_on; [|eauto].
    apply IH. by eapply loop_pass_ok.
Qed.

Lemma main_loop_never_raises_witness :
  is_Some (main_loop vertex_x start
             [(Some crouch, 255); (None, 50); (Some level_knees, 113)]).
Proof.
  apply main_loop_never_raises.
  repeat apply Forall_cons_2; try apply Forall_nil_2;
    intros landmarks [= <-]; unfold loop_landmarks, read_landmarks; cbn [app];
    repeat apply Forall_cons_2; try apply Forall_nil_2;
    vm_compute; eauto.
Defined.

(** No row is logged twice, and every logged row names one of the three
    exercises with a count between 1 and the count the detector holds for
    it: the loop logs only repetitions that were counted. *)
Theorem logged_rows_sound (ca : point → point → point → float)
    (passes : list (option pixel_map * Z)) (s : Session) :
  main_loop ca start passes = Some s →
  NoDup (logged s)
  ∧ ∀ e r, (e, r) ∈ logged s →
           e ∈ exercises
           ∧ ∃ n, rep_counters (detector s) !! e = Some n ∧ 1 ≤ r ≤ n.
Proof.
  intros Hm.
  destruct (main_loop_ok ca passes start s start_ok Hm) as [Hwf Hlast Hrows Hnd].
  split; [done|]. intros e r Her.
  destruct (Hrows e r Her) as (He & l & Hl & Hr). split; [done|].
  destruct (Hlast e He) as (l' & n & Hl' & Hn & Hln).
  rewrite Hl in Hl'. simplify_eq. exists n. split; [done|lia].
Qed.

Lemma logged_rows_sound_witness :
  ∃ s, main_loop vertex_x start [(Some crouch, 255); (Some level_knees, 50)]
       = Some s
       ∧ logged s = [("Squat", 1)]
       ∧ NoDup (logged s)
       ∧ ∀ e r, (e, r) ∈ logged s →
                e ∈ exercises
                ∧ ∃ n, rep_counters (detector s) !! e = Some n ∧ 1 ≤ r ≤ n.
Proof.
  destruct (main_loop vertex_x start [(Some crouch, 255); (Some level_knees, 50)])
    as [s|] eqn:Hm; [|vm_compute in Hm; discriminate].
  exists s. split; [reflexivity|]. split.
  - vm_compute in Hm. by injection Hm as <-.
  - exact (logged_rows_sound vertex_x _ s Hm).
Defined.

(** After every frame with a detected pose the log is level with the
    detector: the last logged count of the selected exercise is the count
    in the returned status, which is the count the detector holds. *)
Theorem log_level_after_pose (ca : point → point → point → float)
    (passes : list (option pixel_map * Z)) (s s' : Session)
    (landmarks : pixel_map) (st : ExerciseStatus) (fb : string) :
  main_loop ca start passes = Some s →
  analyse ca s (Some landmarks) = Some (s', st, fb) →
  last_logged_reps s' !! exercise st = Some (reps st)
  ∧ rep_counters (detector s') !! exercise st = Some (reps st).
Proof.
  intros Hm Ha.
  destruct (main_loop_ok ca passes start s start_ok Hm) as [Hwf Hlast Hrows Hnd].
  destruct (analyse_inv ca s s' (Some landmarks) st fb Hwf Ha)
    as (ph' & n & n' & Hn & Hle & _ & -> & Hd & Hlog).
  cbn [status_of exercise reps]. rewrite Hd.
  split; [|apply stored_current].
  destruct Hlog as [(-> & _ & [? | (l & Hl & Hnl)]) | (_ & l & _ & _ & -> & _)].
  - done.
  - destruct (Hlast _ (wf_current _ Hwf)) as (l' & m & Hl' & Hm' & Hlm).
    rewrite Hn in Hm'. rewrite Hl in Hl'. simplify_eq.
    rewrite Hl. f_equal. lia.
  - apply lookup_insert_eq.
Qed.

Lemma log_level_after_pose_witness :
  ∃ s s' st fb,
    main_loop vertex_x start [(Some crouch, 255)] = Some s
    ∧ analyse vertex_x s (Some level_knees) = Some (s', st, fb)
    ∧ last_logged_reps s' !! exercise st = Some (reps st)
    ∧ rep_counters (detector s') !! exercise st = Some (reps st).
Proof.
  destruct (main_loop vertex_x start [(Some crouch, 255)]) as [s|] eqn:Hm;
    [|vm_compute in Hm; discriminate].
  destruct (analyse vertex_x s (Some level_knees)) as [[[s' st] fb]|] eqn:Ha.
  - exists s, s', st, fb. split; [reflexivity|]. split; [exact Ha|].
    exact (log_level_after_pose vertex_x _ s s' level_knees st fb Hm Ha).
  - exfalso. vm_compute in Hm. injection Hm as <-. vm_compute in Ha. discriminate.
Defined.





(** ** A descent is left only by rising above 160 *)

Lemma feed_stays_down (frames : list angle_map) :
  ∀ (d : ExerciseDetector) (key : string) (low : Z) (n : Z),
    characteristic (current_exercise d) = Some (key, low) →
    last_phase d !! current_exercise d = Some "down" →
    rep_counters d !! current_exercise d = Some n →
    Forall (λ angles, Py.gt (default (Py.Float 180) (angles !! key)) 160 = false)
           frames →
    ∃ d' sts,
      feed d frames = Some (d', sts)
      ∧ Forall (λ st, st = status_of d "down" n) sts
      ∧ rep_counters d' !! current_exercise d = Some n
      ∧ last_phase d' !! current_exercise d = Some "down".
Proof.
  induction frames as [|angles frames IH]; intros d key low n Hc Hph Hn Hall.
  - exists d, []. cbn [feed]. auto.
  - apply Forall_cons in Hall as [Hgt Hall].
    assert (Hu : update d angles
                 = Some (stored d "down" n, status_of d "down" n)).
    { pose proof (update_known d angles "down" n Hph Hn key low Hc) as Hu.
      cbv zeta in Hu. rewrite Hgt in Hu. cbn [andb] in Hu.
      by destruct (Py.lt _ low). }
    destruct (stored_current d "down" n) as [Hn1 Hph1].
    destruct (IH (stored d "down" n) key low n Hc Hph1 Hn1 Hall)
      as (d' & sts & Hf & Hsts & Hn' & Hph').
    exists d', (status_of d "down" n :: sts).
    rewrite feed_cons, Hu. cbn [mbind option_bind fst snd]. rewrite Hf.
    cbn [mbind option_bind fst snd]. split; [done|].
    split; [by apply Forall_cons|]. done.
Qed.

(** Once an exercise is in phase "down", frames whose characteristic angle
    never exceeds 160 count nothing and leave the phase "down", however
    the angle moves below that: every status repeats the count with phase
    "down". *)
Theorem no_rise_no_rep (d : ExerciseDetector) (frames : list angle_map)
    (key : string) (low : Z) (n : Z) :
  characteristic (current_exercise d) = Some (key, low) →
  last_phase d !! current_exercise d = Some "down" →
  rep_counters d !! current_exercise d = Some n →
  Forall (λ angles, Py.gt (default (Py.Float 180) (angles !! key)) 160 = false)
         frames →
  ∃ d' sts,
    feed d frames = Some (d', sts)
    ∧ Forall (λ st, reps st = n ∧ phase st = "down") sts
    ∧ rep_counters d' !! current_exercise d = Some n
    ∧ last_phase d' !! current_exercise d = Some "down".
Proof.
  intros Hc Hph Hn Hall.
  destruct (feed_stays_down frames d key low n Hc Hph Hn Hall)
    as (d' & sts & Hf & Hsts & Hn' & Hph').
  exists d', sts. split; [done|]. split; [|done].
  eapply Forall_impl; [exact Hsts|]. by intros st ->.
Qed.

Lemma no_rise_no_rep_witness :
  ∃ d' sts,
    feed squat_down (knee_frame <$> [Py.Int 120; Py.Float 60; Py.Int 160])
    = Some (d', sts)
    ∧ Forall (λ st, reps st = 0 ∧ phase st = "down") sts
    ∧ rep_counters d' !! current_exercise squat_down = Some 0
    ∧ last_phase d' !! current_exercise squat_down = Some "down".
Proof.
  apply (no_rise_no_rep squat_down _ "knee" 70 0); try reflexivity.
  repeat constructor.
Defined.

(** ** Properties of the angle calculator *)










